(** * ping: stop-and-wait packet exchange over the iqpr transport

    A shallow embedding of [usrp-legacy/iqpr/ping.cc].  The program's single
    function [main] is split along its loops: the master's packet loop, its
    transmission attempts and its wait for an acknowledgement, the slave's
    receive loop, and the statistics printed at the end.

    The transport ([iqpr_rxpacket], [iqpr_txpacket]) and [rand] are outside
    the program: the results of successive receive polls and of successive
    [rand] calls are given by the [world], and the packets handed to the
    transmitter are recorded in the state.  The [usleep] calls and the
    console output do not influence any decision of the program and are
    left out. *)

From Stdlib Require Import ZArith List Bool Lia Strings.Byte.
From Stdlib Require Import Floats.SpecFloat.
Import ListNotations.

Local Open Scope Z_scope.

(** ** Machine integers *)

(** [unsigned int] arithmetic is modulo 2^32, [unsigned long] modulo 2^64. *)
Definition wrap32 (z : Z) : Z := z mod 2 ^ 32.
Definition wrap64 (z : Z) : Z := z mod 2 ^ 64.

(** Value of an [unsigned char]. *)
Definition uchar (b : byte) : Z := Z.of_N (Byte.to_N b).

(** Conversion of an [int] to [unsigned char] keeps the low eight bits. *)
Definition to_uchar (z : Z) : byte :=
  match Byte.of_N (Z.to_N (z mod 256)) with
  | Some b => b
  | None => x00
  end.

(** ** Constants of the program *)

Definition PING_PACKET_DATA : Z := 59.
Definition PING_PACKET_ACK : Z := 77.

(** ** Configuration: the variables [main] sets before its loops and never
    changes afterwards. *)
Record config := mkConfig {
  num_packets : Z;        (* -N, unsigned int, default 100 *)
  tx_payload_len : Z;     (* -n, unsigned int, default 200 *)
  max_num_attempts : Z;   (* -A, unsigned int, default 500 *)
  ack_timeout : Z;        (* unsigned int, 240000 us *)
  timespec : Z            (* unsigned int, 1000 us *)
}.

Definition default_config : config :=
  mkConfig 100 200 500 240000 1000.

(** ** Frames and packets *)

(** What one successful call of [iqpr_rxpacket] stores through its pointer
    arguments.  The two validity flags are C [int]s that the program only
    tests against zero. *)
Record frame := mkFrame {
  rx_header : list byte;
  rx_header_valid : bool;
  rx_payload_len : Z;
  rx_payload_valid : bool
}.

(** What is handed to [iqpr_txpacket]. *)
Record packet := mkPacket {
  tx_header : list byte;
  tx_payload : list byte
}.

(** [h[i]] for a header [h]. *)
Definition hdr (h : list byte) (i : nat) : Z := uchar (nth i h x00).

(** [(rx_header[0] << 8) | rx_header[1]] *)
Definition decode_pid (h : list byte) : Z :=
  Z.lor (Z.shiftl (hdr h 0) 8) (hdr h 1).

(** ** The outside world and the program state *)

Record world := mkWorld {
  rx : nat -> option frame;   (* result of the n-th receive poll *)
  rand : nat -> Z             (* result of the n-th call of rand() *)
}.

Record state := mkState {
  polls : nat;                (* calls of iqpr_rxpacket so far *)
  rands : nat;                (* calls of rand() so far *)
  sent : list packet;         (* packets transmitted so far, oldest first *)
  num_bytes_received : Z;     (* unsigned long *)
  rx_pid : Z                  (* unsigned int *)
}.

Definition init_state : state := mkState 0 0 [] 0 0.

Definition set_rx_pid (v : Z) (s : state) : state :=
  mkState (polls s) (rands s) (sent s) (num_bytes_received s) v.

Definition add_bytes (n : Z) (s : state) : state :=
  mkState (polls s) (rands s) (sent s)
          (wrap64 (num_bytes_received s + n)) (rx_pid s).

(** ** Results of loops

    A loop either leaves with a value, or has used up the number of
    iterations it was allowed; in both cases the state reached is kept. *)
Inductive res (A : Type) : Type :=
| Ret (a : A) (s : state)
| OutOfGas (s : state).
Arguments Ret {A} a s.
Arguments OutOfGas {A} s.

Definition bind {A B} (m : res A) (k : A -> state -> res B) : res B :=
  match m with
  | Ret a s => k a s
  | OutOfGas s => OutOfGas s
  end.

Definition final {A} (m : res A) : state :=
  match m with
  | Ret _ s => s
  | OutOfGas s => s
  end.


(** The five ways the program treats a received frame. *)
Inductive verdict := HeaderError | TypeMismatch | PayloadError | IdMismatch | Accepted.

Definition is_accepted (v : verdict) : bool :=
  match v with Accepted => true | _ => false end.

Section Ping.

Variable c : config.
Variable w : world.

(** *** Transport and random numbers *)

Definition iqpr_rxpacket (s : state) : option frame * state :=
  (rx w (polls s),
   mkState (S (polls s)) (rands s) (sent s) (num_bytes_received s) (rx_pid s)).

Definition iqpr_txpacket (h p : list byte) (s : state) : state :=
  mkState (polls s) (rands s) (sent s ++ [mkPacket h p])
          (num_bytes_received s) (rx_pid s).

(** [n] successive calls of [rand()], each reduced to a byte. *)
Definition rand_bytes (n : nat) (s : state) : list byte * state :=
  (map (fun i => to_uchar (rand w (rands s + i))) (seq 0 n),
   mkState (polls s) (rands s + n) (sent s) (num_bytes_received s) (rx_pid s)).

(** *** Master *)

(** Lines 181-185: the header of data packet [tx_pid]. *)
Definition data_header (tx_pid : Z) (fill : list byte) : list byte :=
  to_uchar (Z.land (Z.shiftr tx_pid 8) 255)
  :: to_uchar (Z.land tx_pid 255)
  :: to_uchar PING_PACKET_DATA
  :: fill.

(** Lines 229-246: the chain of tests on a received frame. *)
Definition master_check (f : frame) (tx_pid : Z) : verdict :=
  if negb (rx_header_valid f) then HeaderError
  else if negb (hdr (rx_header f) 2 =? PING_PACKET_ACK) then TypeMismatch
  else if negb (rx_payload_valid f) then PayloadError
  else if negb (decode_pid (rx_header f) =? tx_pid) then IdMismatch
  else Accepted.

(** Lines 214-249: [while (!ack_received && timer < ack_timeout)]. *)
Fixpoint await_ack (gas : nat) (tx_pid timer : Z) (ack_received : bool)
         (s : state) : res bool :=
  if negb ack_received && (timer <? ack_timeout c) then
    match gas with
    | O => OutOfGas s
    | S gas' =>
        let (packet_received, s1) := iqpr_rxpacket s in
        let timer1 := wrap32 (timer + timespec c) in
        match packet_received with
        | Some f =>
            let s2 := set_rx_pid (decode_pid (rx_header f)) s1 in
            let ack1 :=
              if is_accepted (master_check f tx_pid) then true
              else ack_received in
            await_ack gas' tx_pid timer1 ack1 s2
        | None => await_ack gas' tx_pid timer1 ack_received s1
        end
    end
  else Ret ack_received s.

Variable gas : nat.   (* iterations allowed to each execution of a loop *)

(** Lines 194-260: [do { ... } while (!ack_received && num_attempts <
    max_num_attempts)].  The value returned is [(ack_received,
    num_attempts)] when the loop is left. *)
Fixpoint attempts (n : nat) (tx_pid : Z) (h p : list byte) (num_attempts : Z)
         (s : state) : res (bool * Z) :=
  match n with
  | O => OutOfGas s
  | S n' =>
      let num_attempts1 := wrap32 (num_attempts + 1) in
      let s1 := iqpr_txpacket h p s in
      bind (await_ack gas tx_pid 0 false s1) (fun ack_received s2 =>
        if ack_received then
          Ret (true, num_attempts1) (add_bytes (tx_payload_len c) s2)
        else if negb ack_received && (num_attempts1 <? max_num_attempts c)
        then attempts n' tx_pid h p num_attempts1 s2
        else Ret (false, num_attempts1) s2)
  end.

(** How the master's packet loop is left. *)
Inductive exit := Completed | Bailed.

(** Lines 178-266: [for (tx_pid=0; tx_pid<num_packets; tx_pid++)]. *)
Fixpoint master_loop (n : nat) (tx_pid : Z) (s : state) : res exit :=
  if tx_pid <? num_packets c then
    match n with
    | O => OutOfGas s
    | S n' =>
        let (fill, s1) := rand_bytes 5 s in
        let h := data_header tx_pid fill in
        let (p, s2) := rand_bytes (Z.to_nat (tx_payload_len c)) s1 in
        bind (attempts gas tx_pid h p 0 s2) (fun r s3 =>
          if snd r =? max_num_attempts c then Ret Bailed s3
          else master_loop n' (wrap32 (tx_pid + 1)) s3)
    end
  else Ret Completed s.

Definition master : res exit := master_loop gas 0 init_state.

End Ping.

Section Slave.

Variable c : config.
Variable w : world.

(** Lines 329-333: the header of the acknowledgement of a frame with header
    [h]. *)
Definition ack_header (h : list byte) (fill : list byte) : list byte :=
  nth 0 h x00 :: nth 1 h x00 :: to_uchar PING_PACKET_ACK :: fill.

(** Lines 290-344: what the slave does with a frame it has found.  Each
    [continue] leaves this part of the loop body with the state reached so
    far. *)
Definition slave_frame (f : frame) (s : state) : state :=
  if negb (rx_header_valid f) then s
  else if negb (hdr (rx_header f) 2 =? PING_PACKET_DATA) then s
  else
    let s1 := set_rx_pid (decode_pid (rx_header f)) s in
    if negb (rx_payload_valid f) then s1
    else
      let s2 := add_bytes (rx_payload_len f) s1 in
      let (fill, s3) := rand_bytes w 5 s2 in
      let (ack_payload, s4) := rand_bytes w 10 s3 in
      iqpr_txpacket (ack_header (rx_header f) fill) ack_payload s4.

(** Lines 275-346: the outer [do { ... } while (rx_pid != num_packets-1)]
    with the inner [do { ... } while (!packet_found)]; one iteration of
    [slave_loop] is one receive poll.  A [continue] in the body of a
    do-while statement jumps to the test of its condition. *)
Fixpoint slave_loop (n : nat) (s : state) : res unit :=
  match n with
  | O => OutOfGas s
  | S n' =>
      let (packet_found, s1) := iqpr_rxpacket w s in
      match packet_found with
      | None => slave_loop n' s1
      | Some f =>
          let s2 := slave_frame f s1 in
          if negb (rx_pid s2 =? wrap32 (num_packets c - 1))
          then slave_loop n' s2
          else Ret tt s2
      end
  end.

Definition slave (gas : nat) : res unit := slave_loop gas init_state.

End Slave.

(** ** Statistics (lines 360-363) *)

(** [float] is IEEE 754 binary32: 24 bits of mantissa, exponents below 128. *)
Definition float32 := spec_float.
Definition f32_of_Z (z : Z) : float32 := binary_normalize 24 128 z 0 false.
Definition f32_add : float32 -> float32 -> float32 := SFadd 24 128.
Definition f32_mul : float32 -> float32 -> float32 := SFmul 24 128.
Definition f32_div : float32 -> float32 -> float32 := SFdiv 24 128.

(** The literals [1e-6f] and [8.0f]. *)
Definition f32_1e_6 : float32 := S754_finite false 8796093 (-43).
Definition f32_8 : float32 := S754_finite false 8388608 (-20).

Record timeval := mkTimeval { tv_sec : Z; tv_usec : Z }.

Definition runtime (timer0 timer1 : timeval) : float32 :=
  f32_add (f32_of_Z (tv_sec timer1 - tv_sec timer0))
          (f32_mul (f32_of_Z (tv_usec timer1 - tv_usec timer0)) f32_1e_6).

Definition data_rate (nbytes : Z) (rt : float32) : float32 :=
  f32_div (f32_mul f32_8 (f32_of_Z nbytes)) rt.

Definition spectral_efficiency (dr bandwidth : float32) : float32 :=
  f32_div dr bandwidth.

(** The default bandwidth, [200e3f]. *)
Definition f32_200e3 : float32 := S754_finite false 12800000 (-6).

(** ** Command line (lines 74-112)

    [getopt] and the conversions of option arguments ([atof], [atoi],
    [liquid_getopt_str2mod], [liquid_getopt_str2fec]) are library functions:
    the successive results of [getopt], each with its [optarg], are given as
    a list, and the conversions are parameters. *)

Definition PING_NODE_MASTER : Z := 0.
Definition PING_NODE_SLAVE : Z := 1.

Section CommandLine.

Variables modulation_scheme fec_scheme : Type.
Variable atof : list byte -> float32.
Variable atoi : list byte -> Z.
Variable liquid_getopt_str2mod : list byte -> modulation_scheme.
Variable liquid_getopt_str2fec : list byte -> fec_scheme.

(** The variables the options set; [run] holds those the loops of [main]
    read. *)
Record options := mkOptions {
  frequency : float32;
  bandwidth : float32;
  node_type : Z;
  verbose : Z;
  fec0 : fec_scheme;
  fec1 : fec_scheme;
  ms : modulation_scheme;
  run : config
}.

(** How [main] goes on after the options: it runs, or it has printed the
    usage and returned 0, or it has reported an unsupported option and
    called [exit(1)]. *)
Inductive started := Run (o : options) | Usage | Unsupported.

(** Lines 92-112: [while ((d = getopt(...)) != EOF) switch (d) ...]. *)
Fixpoint getopt_loop (opts : list (byte * list byte)) (o : options)
  : started :=
  match opts with
  | [] => Run o
  | (d, optarg) :: rest =>
      match d with
      | "u"%byte | "h"%byte => Usage
      | "f"%byte =>
          getopt_loop rest
            (mkOptions (atof optarg) (bandwidth o) (node_type o) (verbose o)
                       (fec0 o) (fec1 o) (ms o) (run o))
      | "b"%byte =>
          getopt_loop rest
            (mkOptions (frequency o) (atof optarg) (node_type o) (verbose o)
                       (fec0 o) (fec1 o) (ms o) (run o))
      | "N"%byte =>
          getopt_loop rest
            (mkOptions (frequency o) (bandwidth o) (node_type o) (verbose o)
                       (fec0 o) (fec1 o) (ms o)
                       (mkConfig (wrap32 (atoi optarg))
                                 (tx_payload_len (run o))
                                 (max_num_attempts (run o))
                                 (ack_timeout (run o)) (timespec (run o))))
      | "A"%byte =>
          getopt_loop rest
            (mkOptions (frequency o) (bandwidth o) (node_type o) (verbose o)
                       (fec0 o) (fec1 o) (ms o)
                       (mkConfig (num_packets (run o))
                                 (tx_payload_len (run o))
                                 (wrap32 (atoi optarg))
                                 (ack_timeout (run o)) (timespec (run o))))
      | "M"%byte =>
          getopt_loop rest
            (mkOptions (frequency o) (bandwidth o) PING_NODE_MASTER
                       (verbose o) (fec0 o) (fec1 o) (ms o) (run o))
      | "S"%byte =>
          getopt_loop rest
            (mkOptions (frequency o) (bandwidth o) PING_NODE_SLAVE
                       (verbose o) (fec0 o) (fec1 o) (ms o) (run o))
      | "n"%byte =>
          getopt_loop rest
            (mkOptions (frequency o) (bandwidth o) (node_type o) (verbose o)
                       (fec0 o) (fec1 o) (ms o)
                       (mkConfig (num_packets (run o))
                                 (wrap32 (atoi optarg))
                                 (max_num_attempts (run o))
                                 (ack_timeout (run o)) (timespec (run o))))
      | "m"%byte =>
          getopt_loop rest
            (mkOptions (frequency o) (bandwidth o) (node_type o) (verbose o)
                       (fec0 o) (fec1 o) (liquid_getopt_str2mod optarg)
                       (run o))
      | "c"%byte =>
          getopt_loop rest
            (mkOptions (frequency o) (bandwidth o) (node_type o) (verbose o)
                       (liquid_getopt_str2fec optarg) (fec1 o) (ms o) (run o))
      | "k"%byte =>
          getopt_loop rest
            (mkOptions (frequency o) (bandwidth o) (node_type o) (verbose o)
                       (fec0 o) (liquid_getopt_str2fec optarg) (ms o) (run o))
      | "v"%byte =>
          getopt_loop rest
            (mkOptions (frequency o) (bandwidth o) (node_type o) 1
                       (fec0 o) (fec1 o) (ms o) (run o))
      | "q"%byte =>
          getopt_loop rest
            (mkOptions (frequency o) (bandwidth o) (node_type o) 0
                       (fec0 o) (fec1 o) (ms o) (run o))
      | _ => Unsupported
      end
  end.

End CommandLine.

Arguments Run {modulation_scheme fec_scheme} o.
Arguments Usage {modulation_scheme fec_scheme}.
Arguments Unsupported {modulation_scheme fec_scheme}.

(** ** Vocabulary for the properties

    Nothing below is part of the program: these definitions name the
    situations the properties speak about. *)

(** Two states that differ at most in the number of polls made and in
    [rx_pid]. *)
Definition quiet (s s' : state) : Prop :=
  rands s' = rands s /\ sent s' = sent s /\
  num_bytes_received s' = num_bytes_received s.

(** Poll [i] delivers a frame that the master, waiting for the
    acknowledgement of packet [k], accepts. *)
Definition accepts (w : world) (k : Z) (i : nat) : bool :=
  match rx w i with
  | Some f => is_accepted (master_check f k)
  | None => false
  end.

(** The state after one more poll of the master. *)
Definition polled (w : world) (s : state) : state :=
  match rx w (polls s) with
  | Some f => set_rx_pid (decode_pid (rx_header f)) (snd (iqpr_rxpacket w s))
  | None => snd (iqpr_rxpacket w s)
  end.

(** The number of polls of one wait: the least [n] with
    [n * timespec >= ack_timeout]. *)
Definition window (c : config) : nat :=
  Z.to_nat ((ack_timeout c + timespec c - 1) / timespec c).

(** Header, payload and state once the random bytes of a packet are drawn
    (lines 181-189). *)
Definition packet_header (w : world) (k : Z) (s : state) : list byte :=
  data_header k (fst (rand_bytes w 5 s)).

Definition packet_payload (c : config) (w : world) (s : state) : list byte :=
  fst (rand_bytes w (Z.to_nat (tx_payload_len c)) (snd (rand_bytes w 5 s))).

Definition packet_state (c : config) (w : world) (s : state) : state :=
  snd (rand_bytes w (Z.to_nat (tx_payload_len c)) (snd (rand_bytes w 5 s))).

(** The three tests a frame has to pass before the slave answers it. *)
Definition good_data (f : frame) : bool :=
  rx_header_valid f && (hdr (rx_header f) 2 =? PING_PACKET_DATA)
  && rx_payload_valid f.

(** The acknowledgement the slave builds for frame [f] in state [s]. *)
Definition slave_ack (w : world) (s : state) (f : frame) : packet :=
  mkPacket (ack_header (rx_header f) (fst (rand_bytes w 5 s)))
           (fst (rand_bytes w 10 (snd (rand_bytes w 5 s)))).

(** Packet [p] answers a frame that was polled at an index in [[lo, hi)]
    and passed the three tests. *)
Definition answers_good_data (w : world) (lo hi : nat) (p : packet) : Prop :=
  exists i f fill payload,
    (lo <= i < hi)%nat /\ rx w i = Some f /\
    rx_header_valid f = true /\ hdr (rx_header f) 2 = PING_PACKET_DATA /\
    rx_payload_valid f = true /\
    p = mkPacket (ack_header (rx_header f) fill) payload.

(** The frame the receiver finds when a transmitted packet arrives
    undamaged. *)
Definition delivered (p : packet) : frame :=
  mkFrame (tx_header p) true (Z.of_nat (length (tx_payload p))) true.

(** *** Concrete frames, worlds and configurations *)

(** The acknowledgement of packet 0, undamaged. *)
Definition ack0 : frame :=
  delivered (mkPacket (ack_header (data_header 0 []) []) []).

(** A frame whose header failed its check. *)
Definition bad_header_frame : frame :=
  mkFrame [x00; x00; x00; x00; x00; x00; x00; x00] false 0 false.

(** Data frame 2 with a payload that failed its check. *)
Definition bad_payload_frame : frame :=
  mkFrame (data_header 2 [x00; x00; x00; x00; x00]) true 200 false.

(** The receiver never finds a frame. *)
Definition silent_world : world := mkWorld (fun _ => None) (fun _ => 0).

(** The receiver finds the acknowledgement of packet 0 at its first poll
    and nothing afterwards. *)
Definition prompt_ack_world : world :=
  mkWorld (fun i => if Nat.eqb i 0 then Some ack0 else None) (fun _ => 0).

(** The receiver finds nothing but one acknowledgement of packet 0, at
    poll 240. *)
Definition late_ack_world : world :=
  mkWorld (fun i => if Nat.eqb i 240 then Some ack0 else None) (fun _ => 0).

Definition bad_header_world : world :=
  mkWorld (fun _ => Some bad_header_frame) (fun _ => 0).

Definition bad_payload_world : world :=
  mkWorld (fun _ => Some bad_payload_frame) (fun _ => 0).

(** Variations of the default configuration. *)
Definition one_attempt_config : config := mkConfig 100 200 1 240000 1000.
Definition two_attempts_config : config := mkConfig 100 200 2 240000 1000.
Definition two_packets_one_attempt : config := mkConfig 2 200 1 240000 1000.
Definition two_packets_no_attempt : config := mkConfig 2 200 0 240000 1000.
Definition one_packet : config := mkConfig 1 200 500 240000 1000.
Definition three_packets : config := mkConfig 3 200 500 240000 1000.

(** The receiver finds, at every poll [i], the undamaged acknowledgement
    of packet [i]. *)
Definition echo_world : world :=
  mkWorld (fun i => Some (delivered
                     (mkPacket (ack_header (data_header (Z.of_nat i) []) [])
                               [])))
          (fun _ => 0).

(** *** Options *)

(** The option characters that set a variable and let the parsing go on. *)
Definition sets (d : byte) : bool :=
  existsb (Byte.eqb d)
    ["f"; "b"; "N"; "A"; "M"; "S"; "n"; "m"; "c"; "k"; "v"; "q"]%byte.

(** The last option of a list whose character is selected by [sel]. *)
Fixpoint last_opt (sel : byte -> bool) (opts : list (byte * list byte))
  : option (byte * list byte) :=
  match opts with
  | [] => None
  | x :: rest =>
      match last_opt sel rest with
      | Some y => Some y
      | None => if sel (fst x) then Some x else None
      end
  end.

(** A stand-in for [atoi] on strings of decimal digits. *)
Definition digits_value (a : list byte) : Z :=
  fold_left (fun v b => 10 * v + (uchar b - 48)) a 0.

(** The literal [462e6f]. *)
Definition f32_462e6 : float32 := S754_finite false 14437500 5.

(** The variables as [main] initialises them, with scheme names standing
    for the library's scheme constants. *)
Definition initial_options : options (list byte) (list byte) :=
  mkOptions (list byte) (list byte)
            f32_462e6 f32_200e3 PING_NODE_SLAVE 1
            ["n"; "o"; "n"; "e"]%byte ["h"; "7"; "4"]%byte
            ["q"; "p"; "s"; "k"]%byte default_config.

(** Results of [getopt] for [-N 3 -M -N 7 -S] and for [-N 5 -h -x]. *)
Definition sample_options : list (byte * list byte) :=
  [("N", ["3"]); ("M", []); ("N", ["7"]); ("S", [])]%byte.

Definition sample_help : list (byte * list byte) :=
  [("N", ["5"])]%byte ++ ("h", [])%byte :: [("?", [])]%byte.

(** The receiver finds, at every poll [i], data packet [i] undamaged. *)
Definition data_world : world :=
  mkWorld (fun i => Some (delivered
                     (mkPacket (data_header (Z.of_nat i)
                                            [x00; x00; x00; x00; x00])
                               [x00; x00])))
          (fun _ => 0).

(** *** Traces *)

(** A burst: the same packet transmitted a number of times in a row. *)
Definition burst (b : packet * nat) : list packet := repeat (fst b) (snd b).

Definition bursts (bs : list (packet * nat)) : list packet :=
  flat_map burst bs.

(** The bursts [bs] carry data packets with the consecutive ids [k],
    [k + 1], ..., each with an 8-byte header and a payload of the
    configured length; every burst has at least one transmission, and none
    is longer than the attempt limit allows (one transmission is always
    made). *)
Fixpoint in_order (c : config) (k : Z) (bs : list (packet * nat)) : Prop :=
  match bs with
  | [] => True
  | b :: bs' =>
      (exists fill, tx_header (fst b) = data_header k fill /\
                    length fill = 5%nat) /\
      length (tx_payload (fst b)) = Z.to_nat (tx_payload_len c) /\
      1 <= Z.of_nat (snd b) <= Z.max 1 (max_num_attempts c) /\
      in_order c (k + 1) bs'
  end.

(** The frames found by the polls [lo], [lo + 1], ..., [lo + n - 1]. *)
Definition polled_frames (w : world) (lo n : nat) : list frame :=
  flat_map (fun i => match rx w i with Some f => [f] | None => [] end)
           (seq lo n).

(** The id carried by a transmitted packet. *)
Definition packet_id (p : packet) : Z := decode_pid (tx_header p).

(** The payload lengths of a list of frames, added up. *)
Definition total_payload (l : list frame) : Z :=
  fold_right Z.add 0 (map rx_payload_len l).

(** * Properties *)

(** ** Bytes and packet ids *)

Lemma uchar_range (b : byte) : 0 <= uchar b < 256.
Proof.
  unfold uchar. pose proof (Byte.to_N_bounded b). lia.
Qed.

Lemma uchar_to_uchar (z : Z) : uchar (to_uchar z) = z mod 256.
Proof.
  unfold uchar, to_uchar.
  assert (Hz : 0 <= z mod 256 < 256) by (apply Z.mod_pos_bound; lia).
  destruct (Byte.of_N (Z.to_N (z mod 256))) as [b|] eqn:E.
  - apply Byte.to_of_N in E. rewrite E. lia.
  - apply Byte.of_N_None_iff in E. lia.
Qed.

Lemma lor_below (n a b : Z) :
  0 <= n -> 0 <= a < 2 ^ n -> 0 <= b < 2 ^ n -> 0 <= Z.lor a b < 2 ^ n.
Proof.
  intros Hn Ha Hb.
  assert (H0 : 0 <= Z.lor a b) by (apply Z.lor_nonneg; lia).
  split; [exact H0|].
  destruct (Z.eq_dec (Z.lor a b) 0) as [E|E]; [rewrite E; lia|].
  assert (Hn' : 0 < n).
  { destruct (Z.eq_dec n 0) as [->|]; [|lia].
    assert (a = 0) by lia. assert (b = 0) by lia. subst. now elim E. }
  apply Z.log2_lt_pow2; [lia|].
  rewrite Z.log2_lor by lia.
  apply Z.max_lub_lt.
  - destruct (Z.eq_dec a 0) as [->|]; [simpl; lia|apply Z.log2_lt_pow2; lia].
  - destruct (Z.eq_dec b 0) as [->|]; [simpl; lia|apply Z.log2_lt_pow2; lia].
Qed.

Lemma decode_pid_range (h : list byte) : 0 <= decode_pid h < 65536.
Proof.
  unfold decode_pid, hdr.
  pose proof (uchar_range (nth 0 h x00)) as H0.
  pose proof (uchar_range (nth 1 h x00)) as H1.
  change 65536 with (2 ^ 16).
  apply lor_below; [lia| |lia].
  rewrite Z.shiftl_mul_pow2 by lia. lia.
Qed.

(** ** The master's frame test *)

Lemma master_check_accepted (f : frame) (k : Z) :
  master_check f k = Accepted <->
  rx_header_valid f = true /\ hdr (rx_header f) 2 = PING_PACKET_ACK /\
  rx_payload_valid f = true /\ decode_pid (rx_header f) = k.
Proof.
  unfold master_check.
  destruct (rx_header_valid f), (rx_payload_valid f);
    destruct (Z.eqb_spec (hdr (rx_header f) 2) PING_PACKET_ACK);
    destruct (Z.eqb_spec (decode_pid (rx_header f)) k); simpl;
    intuition congruence.
Qed.

Lemma master_check_other_id (f : frame) (k k' : Z) :
  master_check f k = Accepted -> k' <> k -> master_check f k' = IdMismatch.
Proof.
  intros H Hk. apply master_check_accepted in H.
  destruct H as (Hh & Ht & Hp & Hd).
  unfold master_check. rewrite Hh, Hp, Ht, Hd. simpl.
  destruct (Z.eqb_spec k k'); [congruence|reflexivity].
Qed.

Lemma master_check_large_id (f : frame) (k : Z) :
  65536 <= k -> master_check f k <> Accepted.
Proof.
  intros Hk H. apply master_check_accepted in H.
  pose proof (decode_pid_range (rx_header f)). lia.
Qed.

(** ** Waiting for an acknowledgement *)

Lemma quiet_refl s : quiet s s.
Proof. repeat split. Qed.

Lemma quiet_trans s1 s2 s3 : quiet s1 s2 -> quiet s2 s3 -> quiet s1 s3.
Proof. unfold quiet. intuition congruence. Qed.

Section Await.

Variable c : config.
Variable w : world.
Variable k : Z.

Lemma polled_polls s : polls (polled w s) = S (polls s).
Proof. unfold polled. destruct (rx w (polls s)); reflexivity. Qed.

Lemma polled_quiet s : quiet s (polled w s).
Proof. unfold polled. destruct (rx w (polls s)); repeat split. Qed.

Lemma await_ack_eq gas timer a s :
  await_ack c w gas k timer a s =
  if negb a && (timer <? ack_timeout c) then
    match gas with
    | O => OutOfGas s
    | S gas' =>
        await_ack c w gas' k (wrap32 (timer + timespec c))
                  (a || accepts w k (polls s)) (polled w s)
    end
  else Ret a s.
Proof.
  destruct gas as [|gas']; [reflexivity|].
  simpl. destruct (negb a && (timer <? ack_timeout c)) eqn:E; [|reflexivity].
  unfold accepts, polled. destruct (rx w (polls s)) as [f|].
  - destruct a; [discriminate|]. simpl.
    destruct (is_accepted (master_check f k)); reflexivity.
  - now rewrite orb_false_r.
Qed.

Lemma await_ack_acked gas timer s :
  await_ack c w gas k timer true s = Ret true s.
Proof. now rewrite await_ack_eq. Qed.

(** Whatever the transport delivers, waiting changes nothing but the poll
    count and [rx_pid], and it reports an acknowledgement only if one of
    the frames polled w was accepted. *)
Lemma await_ack_sound gas : forall timer a s,
  let r := await_ack c w gas k timer a s in
  quiet s (final r) /\ (polls s <= polls (final r))%nat /\
  (forall s', r = Ret true s' ->
     a = true \/
     exists i, (polls s <= i < polls s')%nat /\ accepts w k i = true).
Proof.
  induction gas as [|g IH]; intros timer a s; cbv zeta;
    rewrite await_ack_eq;
    destruct (negb a && (timer <? ack_timeout c)) eqn:E; simpl.
  - split; [apply quiet_refl|]. split; [lia|]. discriminate.
  - split; [apply quiet_refl|]. split; [lia|].
    intros s' H. injection H as -> _. now left.
  - specialize (IH (wrap32 (timer + timespec c))
                   (a || accepts w k (polls s)) (polled w s)).
    cbv zeta in IH. destruct IH as (Hq & Hp & Hs).
    rewrite polled_polls in Hp.
    split; [eapply quiet_trans; [apply polled_quiet|exact Hq]|].
    split; [lia|].
    intros s' H. destruct (Hs s' H) as [Ha|(i & Hi & Hacc)].
    + apply orb_true_iff in Ha. destruct Ha as [Ha|Ha]; [now left|].
      right. exists (polls s). split; [|exact Ha].
      rewrite H in Hp. simpl in Hp. lia.
    + right. exists i. rewrite polled_polls in Hi. split; [lia|exact Hacc].
  - split; [apply quiet_refl|]. split; [lia|].
    intros s' H. injection H as -> _. now left.
Qed.

Hypothesis timespec_pos : 0 < timespec c.
Hypothesis timeout_nonneg : 0 <= ack_timeout c.
Hypothesis timer_fits : ack_timeout c + timespec c <= 2 ^ 32.

Lemma window_spec :
  ack_timeout c <= Z.of_nat (window c) * timespec c /\
  (0 < ack_timeout c -> (Z.of_nat (window c) - 1) * timespec c < ack_timeout c).
Proof.
  unfold window.
  set (A := ack_timeout c). set (T := timespec c).
  assert (HT : 0 < T) by exact timespec_pos.
  destruct (Z_le_gt_dec A 0) as [HA|HA].
  - assert ((A + T - 1) / T <= 0).
    { apply Z.lt_succ_r. apply Z.div_lt_upper_bound; lia. }
    split; lia.
  - assert (0 <= (A + T - 1) / T) by (apply Z.div_pos; lia).
    rewrite Z2Nat.id by lia.
    pose proof (Z.div_mod (A + T - 1) T ltac:(lia)) as Hd.
    pose proof (Z.mod_pos_bound (A + T - 1) T HT) as Hm.
    split; nia.
Qed.

(** No frame accepted during [n] polls that do not exhaust the timer. *)
Lemma await_ack_silent : forall n gas timer s,
  0 <= timer ->
  timer + Z.of_nat n * timespec c < ack_timeout c + timespec c ->
  (n <= gas)%nat ->
  (forall i, (i < n)%nat -> accepts w k (polls s + i) = false) ->
  exists s1,
    await_ack c w gas k timer false s =
    await_ack c w (gas - n) k (timer + Z.of_nat n * timespec c) false s1 /\
    polls s1 = (polls s + n)%nat /\ quiet s s1.
Proof.
  induction n as [|n IH]; intros gas timer s Ht Hlt Hg Hno.
  - exists s. rewrite Nat.sub_0_r, Z.add_0_r, Nat.add_0_r.
    repeat split.
  - destruct gas as [|g]; [lia|].
    rewrite await_ack_eq.
    assert (Hlt' : timer < ack_timeout c) by nia.
    apply Z.ltb_lt in Hlt'. rewrite Hlt'. simpl negb. simpl andb.
    rewrite <- (Nat.add_0_r (polls s)), (Hno 0%nat) by lia.
    simpl orb.
    assert (Hw : wrap32 (timer + timespec c) = timer + timespec c).
    { unfold wrap32. apply Z.mod_small. apply Z.ltb_lt in Hlt'. lia. }
    rewrite Hw.
    destruct (IH g (timer + timespec c) (polled w s)) as (s1 & E & Hp & Hq).
    + lia.
    + lia.
    + lia.
    + intros i Hi. rewrite polled_polls.
      replace (S (polls s) + i)%nat with (polls s + S i)%nat by lia.
      apply Hno. lia.
    + exists s1. rewrite E. rewrite polled_polls in Hp.
      replace (S g - S n)%nat with (g - n)%nat by lia.
      replace (timer + timespec c + Z.of_nat n * timespec c)
        with (timer + Z.of_nat (S n) * timespec c) by lia.
      split; [reflexivity|]. split; [lia|].
      eapply quiet_trans; [apply polled_quiet|exact Hq].
Qed.

(** A whole (window c) without an accepted frame: the wait times out after
    exactly [window c] polls. *)
Lemma await_ack_timeout gas s :
  ((window c) <= gas)%nat ->
  (forall i, (i < (window c))%nat -> accepts w k (polls s + i) = false) ->
  exists s1,
    await_ack c w gas k 0 false s = Ret false s1 /\
    polls s1 = (polls s + (window c))%nat /\ quiet s s1.
Proof.
  intros Hg Hno. pose proof window_spec as (Hw1 & Hw2).
  destruct (await_ack_silent (window c) gas 0 s) as (s1 & E & Hp & Hq);
    try assumption; try lia.
  - destruct (Z_le_gt_dec (ack_timeout c) 0).
    + assert ((ack_timeout c + timespec c - 1) / timespec c <= 0).
      { apply Z.lt_succ_r. apply Z.div_lt_upper_bound; lia. }
      unfold window. lia.
    + lia.
  - exists s1. rewrite E, await_ack_eq.
    assert (Hge : (0 + Z.of_nat (window c) * timespec c <? ack_timeout c) = false)
      by (apply Z.ltb_ge; lia).
    rewrite Hge. simpl. split; [reflexivity|]. split; assumption.
Qed.

(** The first accepted frame arrives at poll [j] of the (window c): the wait
    ends right after that poll. *)
Lemma await_ack_first gas s j :
  ((window c) <= gas)%nat -> (j < (window c))%nat ->
  (forall i, (i < j)%nat -> accepts w k (polls s + i) = false) ->
  accepts w k (polls s + j) = true ->
  exists s1,
    await_ack c w gas k 0 false s = Ret true s1 /\
    polls s1 = (polls s + S j)%nat /\ quiet s s1.
Proof.
  intros Hg Hj Hno Hyes. pose proof window_spec as (Hw1 & Hw2).
  assert (HA : 0 < ack_timeout c).
  { destruct (Z_le_gt_dec (ack_timeout c) 0); [|lia].
    exfalso. unfold window in Hj.
    assert ((ack_timeout c + timespec c - 1) / timespec c <= 0).
    { apply Z.lt_succ_r. apply Z.div_lt_upper_bound; lia. }
    lia. }
  specialize (Hw2 HA).
  destruct (await_ack_silent j gas 0 s) as (s1 & E & Hp & Hq);
    try assumption; try nia.
  exists (polled w s1). rewrite E.
  destruct (gas - j)%nat as [|g] eqn:Eg; [lia|].
  rewrite await_ack_eq.
  assert (Hlt : (0 + Z.of_nat j * timespec c <? ack_timeout c) = true)
    by (apply Z.ltb_lt; nia).
  rewrite Hlt, Hp, Hyes. simpl. rewrite await_ack_acked.
  split; [reflexivity|]. rewrite polled_polls. split; [lia|].
  eapply quiet_trans; [exact Hq|apply polled_quiet].
Qed.

(** Every wait ends, after at most [window c] polls. *)
Lemma await_ack_returns : forall n gas timer a s,
  0 <= timer -> ack_timeout c <= timer + Z.of_nat n * timespec c ->
  (n <= gas)%nat ->
  exists b s1,
    await_ack c w gas k timer a s = Ret b s1 /\
    (polls s1 <= polls s + n)%nat.
Proof.
  induction n as [|n IH]; intros gas timer a s Ht Hge Hg;
    rewrite await_ack_eq.
  - assert (E : (timer <? ack_timeout c) = false) by (apply Z.ltb_ge; lia).
    rewrite E, andb_false_r. exists a, s. split; [reflexivity|lia].
  - destruct (negb a && (timer <? ack_timeout c)) eqn:E.
    + destruct gas as [|g]; [lia|].
      apply andb_true_iff in E. destruct E as [_ E]. apply Z.ltb_lt in E.
      assert (Hw : wrap32 (timer + timespec c) = timer + timespec c)
        by (unfold wrap32; apply Z.mod_small; lia).
      rewrite Hw.
      destruct (IH g (timer + timespec c) (a || accepts w k (polls s))
                   (polled w s)) as (b & s1 & E1 & Hp); try lia.
      exists b, s1. rewrite polled_polls in Hp. split; [exact E1|lia].
    + exists a, s. split; [reflexivity|lia].
Qed.

End Await.

(** C10: each wait for an acknowledgement ends.  The timer advances by
    [timespec] at every poll, whatever the poll delivers, so the wait makes
    at most [window] polls, the least number of quanta covering
    [ack_timeout]; it makes exactly that many and reports a timeout when no
    polled frame is accepted, and it ends right after the first poll whose
    frame is accepted.  With the program's constants the window is 240
    polls. *)
Theorem await_ack_window (c : config) (w : world) (k : Z) (gas : nat)
        (s : state) :
  0 < timespec c -> 0 <= ack_timeout c ->
  ack_timeout c + timespec c <= 2 ^ 32 ->
  (window c <= gas)%nat ->
  (exists b s1, await_ack c w gas k 0 false s = Ret b s1 /\
                (polls s1 <= polls s + window c)%nat) /\
  ((forall i, (i < window c)%nat -> accepts w k (polls s + i) = false) ->
   exists s1, await_ack c w gas k 0 false s = Ret false s1 /\
              polls s1 = (polls s + window c)%nat) /\
  (forall j, (j < window c)%nat ->
     (forall i, (i < j)%nat -> accepts w k (polls s + i) = false) ->
     accepts w k (polls s + j) = true ->
     exists s1, await_ack c w gas k 0 false s = Ret true s1 /\
                polls s1 = (polls s + S j)%nat) /\
  window default_config = 240%nat.
Proof.
  intros HT HA Hfit Hg. repeat split.
  - destruct (window_spec c HT) as (Hw & _).
    apply await_ack_returns; try assumption; lia.
  - intros Hno.
    destruct (await_ack_timeout c w k HT HA Hfit gas s Hg Hno)
      as (s1 & E & Hp & _).
    now exists s1.
  - intros j Hj Hno Hyes.
    destruct (await_ack_first c w k HT HA Hfit gas s j Hg Hj Hno Hyes)
      as (s1 & E & Hp & _).
    now exists s1.
Qed.

Lemma await_ack_window_witness :
  (0 < timespec default_config /\ 0 <= ack_timeout default_config /\
   ack_timeout default_config + timespec default_config <= 2 ^ 32 /\
   (window default_config <= 240)%nat) /\
  exists s1,
    await_ack default_config silent_world 240 0 0 false init_state =
    Ret false s1 /\ polls s1 = 240%nat.
Proof.
  assert (H1 : 0 < timespec default_config) by (vm_compute; reflexivity).
  assert (H2 : 0 <= ack_timeout default_config) by (vm_compute; discriminate).
  assert (H3 : ack_timeout default_config + timespec default_config <= 2 ^ 32)
    by (vm_compute; discriminate).
  assert (H4 : (window default_config <= 240)%nat)
    by (vm_compute; apply le_n).
  split; [repeat split; assumption|].
  destruct (await_ack_window default_config silent_world 0 240 init_state
              H1 H2 H3 H4) as (_ & Hsilent & _).
  destruct Hsilent as (s1 & E & Hp); [reflexivity|].
  exists s1. split; [exact E|exact Hp].
Defined.

(** ** Transmission attempts *)

Section Attempts.

Variable c : config.
Variable w : world.
Variable gas : nat.

Lemma attempts_eq n k h p a s :
  attempts c w gas (S n) k h p a s =
  bind (await_ack c w gas k 0 false (iqpr_txpacket h p s))
    (fun ack s2 =>
       if ack then Ret (true, wrap32 (a + 1)) (add_bytes (tx_payload_len c) s2)
       else if wrap32 (a + 1) <? max_num_attempts c
            then attempts c w gas n k h p (wrap32 (a + 1)) s2
            else Ret (false, wrap32 (a + 1)) s2).
Proof.
  simpl. destruct (await_ack c w gas k 0 false (iqpr_txpacket h p s));
    [|reflexivity].
  simpl. destruct a0; reflexivity.
Qed.

(** When the attempts for packet [k] end, either an accepted frame was
    polled, or the counter stands at the limit. *)
Lemma attempts_result : forall n k h p a s r s',
  0 <= a < max_num_attempts c -> max_num_attempts c < 2 ^ 32 ->
  attempts c w gas n k h p a s = Ret r s' ->
  a < snd r <= max_num_attempts c /\
  (fst r = true /\ exists i, accepts w k i = true) \/
  (fst r = false /\ snd r = max_num_attempts c).
Proof.
  induction n as [|n IH]; intros k h p a s r s' Ha Hmax E; [discriminate|].
  rewrite attempts_eq in E.
  assert (Hw : wrap32 (a + 1) = a + 1)
    by (unfold wrap32; apply Z.mod_small; lia).
  rewrite Hw in E.
  pose proof (await_ack_sound c w k gas 0 false (iqpr_txpacket h p s)) as Hs.
  cbv zeta in Hs. destruct Hs as (_ & _ & Hs).
  destruct (await_ack c w gas k 0 false (iqpr_txpacket h p s))
    as [ack s2|s2]; [|discriminate].
  simpl in E. destruct ack.
  - injection E as <- _. left. simpl. split; [lia|]. split; [reflexivity|].
    destruct (Hs s2 eq_refl) as [?|(i & _ & Hi)]; [discriminate|].
    now exists i.
  - destruct (Z.ltb_spec (a + 1) (max_num_attempts c)) as [Hlt|Hge].
    + destruct (IH k h p (a + 1) s2 r s' ltac:(lia) Hmax E)
        as [((Hr1 & Hr2) & Hr3)|Hr].
      * left. split; [lia|exact Hr3].
      * right. exact Hr.
    + injection E as <- _. right. simpl. split; [reflexivity|lia].
Qed.

End Attempts.

(** ** The master's packet loop *)

Section Master.

Variable c : config.
Variable w : world.
Variable gas : nat.

Lemma master_loop_eq n k s :
  master_loop c w gas (S n) k s =
  if k <? num_packets c then
    bind (attempts c w gas gas k (packet_header w k s) (packet_payload c w s) 0
                   (packet_state c w s))
      (fun r s3 =>
         if snd r =? max_num_attempts c then Ret Bailed s3
         else master_loop c w gas n (wrap32 (k + 1)) s3)
  else Ret Completed s.
Proof. reflexivity. Qed.

Lemma master_loop_done n k s :
  num_packets c <= k -> master_loop c w gas n k s = Ret Completed s.
Proof.
  intros H. apply Z.ltb_ge in H.
  destruct n; simpl; now rewrite H.
Qed.

End Master.

Lemma first_true (f : nat -> bool) : forall n,
  (exists j, (j < n)%nat /\ f j = true) ->
  exists j, (j < n)%nat /\ f j = true /\
            forall i, (i < j)%nat -> f i = false.
Proof.
  induction n as [|n IH]; intros (j & Hj & Hf); [lia|].
  destruct (Nat.eq_dec j n) as [->|Hne].
  - destruct (List.existsb f (seq 0 n)) eqn:E.
    + apply existsb_exists in E. destruct E as (i & Hi & Hfi).
      apply in_seq in Hi.
      destruct IH as (j' & Hj' & Hfj' & Hmin); [exists i; split; [lia|easy]|].
      exists j'. split; [lia|]. split; assumption.
    + exists n. split; [lia|]. split; [exact Hf|].
      intros i Hi. destruct (f i) eqn:Efi; [|reflexivity].
      assert (List.existsb f (seq 0 n) = true); [|congruence].
      apply existsb_exists. exists i. split; [apply in_seq; lia|exact Efi].
  - destruct IH as (j' & Hj' & Hfj' & Hmin); [exists j; split; [lia|easy]|].
    exists j'. split; [lia|]. split; assumption.
Qed.

(** C6: with one attempt allowed and a receiver that never finds a frame,
    the master transmits packet 0 once, waits one window, and bails; nothing
    else is transmitted and no byte is counted. *)
Theorem master_one_attempt_silent (c : config) (w : world) (gas : nat) :
  max_num_attempts c = 1 -> 1 <= num_packets c ->
  0 < timespec c -> 0 <= ack_timeout c ->
  ack_timeout c + timespec c <= 2 ^ 32 ->
  (forall i, rx w i = None) ->
  (1 <= gas)%nat -> (window c <= gas)%nat ->
  exists s fill payload,
    master c w gas = Ret Bailed s /\
    sent s = [mkPacket (data_header 0 fill) payload] /\
    num_bytes_received s = 0 /\
    polls s = window c.
Proof.
  intros Hmax Hn HT HA Hfit Hrx Hg1 Hg.
  unfold master. destruct gas as [|g]; [lia|].
  rewrite master_loop_eq.
  assert (E0 : (0 <? num_packets c) = true) by (apply Z.ltb_lt; lia).
  rewrite E0, attempts_eq.
  set (s0 := iqpr_txpacket (packet_header w 0 init_state)
                           (packet_payload c w init_state)
                           (packet_state c w init_state)).
  destruct (await_ack_timeout c w 0 HT HA Hfit (S g) s0 Hg)
    as (s1 & E & Hp & Hq).
  { intros i _. unfold accepts. now rewrite Hrx. }
  rewrite E. simpl bind. rewrite Hmax. simpl.
  exists s1, (fst (rand_bytes w 5 init_state)), (packet_payload c w init_state).
  destruct Hq as (_ & Hsent & Hbytes).
  split; [reflexivity|]. split; [rewrite Hsent; reflexivity|].
  split; [rewrite Hbytes; reflexivity|]. rewrite Hp. reflexivity.
Qed.

Lemma master_one_attempt_silent_witness :
  (max_num_attempts one_attempt_config = 1 /\ 1 <= num_packets one_attempt_config /\
   0 < timespec one_attempt_config /\ 0 <= ack_timeout one_attempt_config /\
   ack_timeout one_attempt_config + timespec one_attempt_config <= 2 ^ 32 /\
   (forall i, rx silent_world i = None) /\
   (1 <= 240)%nat /\ (window one_attempt_config <= 240)%nat) /\
  exists s, master one_attempt_config silent_world 240 = Ret Bailed s /\
            length (sent s) = 1%nat /\ num_bytes_received s = 0.
Proof.
  set (c := one_attempt_config).
  assert (H1 : max_num_attempts c = 1) by reflexivity.
  assert (H2 : 1 <= num_packets c) by (vm_compute; discriminate).
  assert (H3 : 0 < timespec c) by (vm_compute; reflexivity).
  assert (H4 : 0 <= ack_timeout c) by (vm_compute; discriminate).
  assert (H5 : ack_timeout c + timespec c <= 2 ^ 32)
    by (vm_compute; discriminate).
  assert (H6 : forall i, rx silent_world i = None) by reflexivity.
  assert (H7 : (1 <= 240)%nat) by lia.
  assert (H8 : (window c <= 240)%nat) by (vm_compute; apply le_n).
  split; [repeat split; assumption|].
  destruct (master_one_attempt_silent c silent_world 240
              H1 H2 H3 H4 H5 H6 H7 H8)
    as (s & fill & payload & E & Hs & Hb & _).
  exists s. split; [exact E|]. split; [rewrite Hs; reflexivity|exact Hb].
Defined.

(** ** What the master transmits *)

Section MasterTrace.

Variable c : config.
Variable w : world.
Variable gas : nat.

(** The attempts for a packet transmit that packet and nothing else. *)
Lemma attempts_sent k h p : forall n a s,
  exists m, sent (final (attempts c w gas n k h p a s)) =
            sent s ++ repeat (mkPacket h p) m.
Proof.
  induction n as [|n IH]; intros a s.
  - exists 0%nat. simpl. now rewrite app_nil_r.
  - rewrite attempts_eq.
    pose proof (await_ack_sound c w k gas 0 false (iqpr_txpacket h p s)) as Hs.
    cbv zeta in Hs. destruct Hs as ((_ & Hsent & _) & _).
    destruct (await_ack c w gas k 0 false (iqpr_txpacket h p s))
      as [ack s2|s2]; simpl in Hsent |- *.
    + destruct ack.
      * exists 1%nat. simpl. exact Hsent.
      * destruct (wrap32 (a + 1) <? max_num_attempts c).
        -- destruct (IH (wrap32 (a + 1)) s2) as (m & Hm).
           exists (S m). rewrite Hm, Hsent, <- app_assoc. reflexivity.
        -- exists 1%nat. simpl. exact Hsent.
    + exists 1%nat. exact Hsent.
Qed.

(** From packet [k] on, the packet loop transmits only data packets with
    ids from [k] up to [num_packets - 1]. *)
Lemma master_loop_sent : forall n k s,
  0 <= k -> num_packets c < 2 ^ 32 ->
  exists l,
    sent (final (master_loop c w gas n k s)) = sent s ++ l /\
    Forall (fun p => exists k' fill,
                k <= k' < num_packets c /\
                tx_header p = data_header k' fill) l.
Proof.
  induction n as [|n IH]; intros k s Hk Hn.
  - exists []. split; [|constructor].
    rewrite app_nil_r. simpl. now destruct (k <? num_packets c).
  - rewrite master_loop_eq.
    destruct (Z.ltb_spec k (num_packets c)) as [Hlt|Hge].
    + destruct (attempts_sent k (packet_header w k s) (packet_payload c w s)
                              gas 0 (packet_state c w s)) as (m & Hm).
      assert (Hrep : Forall (fun p => exists k' fill,
                                k <= k' < num_packets c /\
                                tx_header p = data_header k' fill)
                            (repeat (mkPacket (packet_header w k s)
                                              (packet_payload c w s)) m)).
      { apply Forall_forall. intros q Hq. apply repeat_spec in Hq. subst q.
        exists k, (fst (rand_bytes w 5 s)). split; [lia|reflexivity]. }
      destruct (attempts c w gas gas k (packet_header w k s)
                         (packet_payload c w s) 0 (packet_state c w s))
        as [r s3|s3]; simpl in Hm |- *.
      * destruct (snd r =? max_num_attempts c).
        -- eexists. split; [exact Hm|exact Hrep].
        -- assert (Hw : wrap32 (k + 1) = k + 1)
             by (unfold wrap32; apply Z.mod_small; lia).
           rewrite Hw.
           destruct (IH (k + 1) s3 ltac:(lia) Hn) as (l & Hl & HF).
           exists (repeat (mkPacket (packet_header w k s)
                                    (packet_payload c w s)) m ++ l).
           split; [rewrite Hl, Hm, <- app_assoc; reflexivity|].
           apply Forall_app. split; [exact Hrep|].
           eapply Forall_impl; [|exact HF].
           intros q (k' & fill & Hk' & Hq). exists k', fill.
           split; [lia|exact Hq].
      * eexists. split; [exact Hm|exact Hrep].
    + exists []. split; [now rewrite app_nil_r|constructor].
Qed.

End MasterTrace.

(** C7: the receiver finds nothing during the first window after packet 0
    is transmitted and finds an accepted acknowledgement during the second:
    the attempts for packet 0 end with the counter at 2, the packet
    transmitted twice and its payload length counted once; whatever the
    master transmits afterwards is a data packet with a later id. *)
Theorem master_retry_then_ack (c : config) (w : world) (gas : nat) :
  2 <= max_num_attempts c -> 1 <= num_packets c < 2 ^ 32 ->
  0 <= tx_payload_len c < 2 ^ 32 ->
  0 < timespec c -> 0 <= ack_timeout c ->
  ack_timeout c + timespec c <= 2 ^ 32 ->
  (forall i, (i < window c)%nat -> rx w i = None) ->
  (exists j, (j < window c)%nat /\ accepts w 0 (window c + j) = true) ->
  (2 <= gas)%nat -> (window c <= gas)%nat ->
  exists s fill payload,
    attempts c w gas gas 0 (data_header 0 fill) payload 0
             (packet_state c w init_state) =
    Ret (true, 2) s /\
    sent s = [mkPacket (data_header 0 fill) payload;
              mkPacket (data_header 0 fill) payload] /\
    num_bytes_received s = tx_payload_len c /\
    exists l,
      sent (final (master c w gas)) =
      mkPacket (data_header 0 fill) payload
      :: mkPacket (data_header 0 fill) payload :: l /\
      Forall (fun p => exists k' fill',
                  1 <= k' < num_packets c /\
                  tx_header p = data_header k' fill') l.
Proof.
  intros Hmax Hn Hlen HT HA Hfit Hnone Hack Hg2 Hg.
  destruct gas as [|[|g]]; [lia|lia|].
  set (G := S (S g)) in *.
  set (h := packet_header w 0 init_state).
  set (p := packet_payload c w init_state).
  set (s0 := packet_state c w init_state).
  (* first attempt: a whole window without a frame *)
  destruct (await_ack_timeout c w 0 HT HA Hfit G (iqpr_txpacket h p s0) Hg)
    as (s1 & E1 & Hp1 & Hq1).
  { intros i Hi. unfold accepts. simpl. now rewrite Hnone. }
  (* second attempt: the first accepted frame of the window *)
  destruct (first_true (fun j => accepts w 0 (window c + j)) (window c) Hack)
    as (j & Hj & Hyes & Hmin).
  simpl in Hp1.
  destruct (await_ack_first c w 0 HT HA Hfit G (iqpr_txpacket h p s1) j Hg Hj)
    as (s2 & E2 & Hp2 & Hq2).
  { intros i Hi. simpl. rewrite Hp1. now apply Hmin. }
  { simpl. rewrite Hp1. exact Hyes. }
  assert (Eatt : attempts c w G G 0 h p 0 s0 =
                 Ret (true, 2) (add_bytes (tx_payload_len c) s2)).
  { unfold G at 2. rewrite attempts_eq, E1. cbn [bind].
    change (wrap32 (0 + 1)) with 1.
    assert (E : (1 <? max_num_attempts c) = true) by (apply Z.ltb_lt; lia).
    rewrite E, attempts_eq, E2. reflexivity. }
  destruct Hq1 as (_ & Hs1 & Hb1). destruct Hq2 as (_ & Hs2 & Hb2).
  simpl in Hs1, Hb1, Hs2, Hb2.
  assert (Hsent : sent (add_bytes (tx_payload_len c) s2) =
                  [mkPacket h p; mkPacket h p]).
  { simpl. rewrite Hs2, Hs1. reflexivity. }
  exists (add_bytes (tx_payload_len c) s2),
         (fst (rand_bytes w 5 init_state)), p.
  split; [exact Eatt|]. split; [exact Hsent|]. split.
  - simpl. rewrite Hb2, Hb1. simpl. unfold wrap64. apply Z.mod_small. lia.
  - unfold master. unfold G at 2. rewrite master_loop_eq.
    assert (E0 : (0 <? num_packets c) = true) by (apply Z.ltb_lt; lia).
    rewrite E0. fold h p s0. rewrite Eatt. cbn [bind snd].
    destruct (2 =? max_num_attempts c).
    + exists []. split; [exact Hsent|constructor].
    + change (wrap32 (0 + 1)) with 1.
      destruct (master_loop_sent c w G (S g) 1
                  (add_bytes (tx_payload_len c) s2))
        as (l & Hl & HF); [lia|lia|].
      exists l. split; [|exact HF].
      rewrite Hl, Hsent. reflexivity.
Qed.

Lemma master_retry_then_ack_witness :
  (2 <= max_num_attempts two_attempts_config /\
   1 <= num_packets two_attempts_config < 2 ^ 32 /\
   0 <= tx_payload_len two_attempts_config < 2 ^ 32 /\
   0 < timespec two_attempts_config /\
   0 <= ack_timeout two_attempts_config /\
   ack_timeout two_attempts_config + timespec two_attempts_config <= 2 ^ 32 /\
   (forall i, (i < window two_attempts_config)%nat ->
              rx late_ack_world i = None) /\
   (exists j, (j < window two_attempts_config)%nat /\
              accepts late_ack_world 0 (window two_attempts_config + j)
              = true) /\
   (2 <= 240)%nat /\ (window two_attempts_config <= 240)%nat) /\
  exists s fill payload,
    attempts two_attempts_config late_ack_world 240 240 0
             (data_header 0 fill) payload 0
             (packet_state two_attempts_config late_ack_world init_state) =
    Ret (true, 2) s /\
    length (sent s) = 2%nat /\ num_bytes_received s = 200.
Proof.
  set (c := two_attempts_config).
  assert (H1 : 2 <= max_num_attempts c) by (vm_compute; discriminate).
  assert (H2 : 1 <= num_packets c < 2 ^ 32)
    by (split; vm_compute; [discriminate|reflexivity]).
  assert (H3 : 0 <= tx_payload_len c < 2 ^ 32)
    by (split; vm_compute; [discriminate|reflexivity]).
  assert (H4 : 0 < timespec c) by (vm_compute; reflexivity).
  assert (H5 : 0 <= ack_timeout c) by (vm_compute; discriminate).
  assert (H6 : ack_timeout c + timespec c <= 2 ^ 32)
    by (vm_compute; discriminate).
  assert (H7 : forall i, (i < window c)%nat -> rx late_ack_world i = None).
  { intros i Hi. change (window c) with 240%nat in Hi. simpl.
    destruct (Nat.eqb_spec i 240); [lia|reflexivity]. }
  assert (H8 : exists j, (j < window c)%nat /\
                         accepts late_ack_world 0 (window c + j) = true).
  { exists 0%nat. split; [vm_compute; lia|vm_compute; reflexivity]. }
  assert (H9 : (2 <= 240)%nat) by lia.
  assert (H10 : (window c <= 240)%nat) by (vm_compute; apply le_n).
  split; [repeat split; try assumption; try apply H2; apply H3|].
  destruct (master_retry_then_ack c late_ack_world 240
              H1 H2 H3 H4 H5 H6 H7 H8 H9 H10)
    as (s & fill & payload & E & Hs & Hb & _).
  exists s, fill, payload.
  split; [exact E|]. split; [rewrite Hs; reflexivity|exact Hb].
Defined.

(** ** Packet ids beyond sixteen bits *)

Section LargeIds.

Variable c : config.
Variable w : world.

Hypothesis many_packets : 65536 < num_packets c < 2 ^ 32.

Lemma slave_frame_rx_pid (f : frame) (s : state) :
  0 <= rx_pid s < 65536 -> 0 <= rx_pid (slave_frame w f s) < 65536.
Proof.
  intros Hs. unfold slave_frame.
  pose proof (decode_pid_range (rx_header f)).
  destruct (rx_header_valid f); simpl; [|exact Hs].
  destruct (hdr (rx_header f) 2 =? PING_PACKET_DATA); simpl; [|exact Hs].
  destruct (rx_payload_valid f); simpl; assumption.
Qed.


Variable gas : nat.
Hypothesis attempts_limited : 1 <= max_num_attempts c < 2 ^ 32.


End LargeIds.





(** ** Encoding and decoding of packet ids *)

Lemma lor_shiftl_byte (a b : Z) :
  0 <= a -> 0 <= b < 256 -> Z.lor (Z.shiftl a 8) b = a * 256 + b.
Proof.
  intros Ha Hb.
  assert (Hd : Z.land (Z.shiftl a 8) b = 0).
  { apply Z.bits_inj'. intros n Hn.
    rewrite Z.land_spec, Z.bits_0.
    destruct (Z_lt_ge_dec n 8) as [Hlt|Hge].
    - now rewrite Z.shiftl_spec_low.
    - destruct (Z.eq_dec b 0) as [->|Hb0].
      + now rewrite Z.bits_0, andb_false_r.
      + rewrite (Z.bits_above_log2 b n), andb_false_r; [reflexivity|lia|].
        assert (Z.log2 b < 8) by (apply Z.log2_lt_pow2; lia). lia. }
  rewrite <- Z.lxor_lor, <- Z.add_nocarry_lxor by exact Hd.
  rewrite Z.shiftl_mul_pow2 by lia. lia.
Qed.

Lemma hdr_data_header_type (k : Z) (fill : list byte) :
  hdr (data_header k fill) 2 = PING_PACKET_DATA.
Proof. reflexivity. Qed.

(** The id read back from a data header is the id reduced modulo 2^16. *)
Lemma decode_data_header (k : Z) (fill : list byte) :
  decode_pid (data_header k fill) = k mod 65536.
Proof.
  unfold decode_pid, data_header, hdr. cbn [nth].
  rewrite !uchar_to_uchar.
  change 255 with (Z.ones 8). rewrite !Z.land_ones by lia.
  rewrite Z.shiftr_div_pow2 by lia.
  rewrite !Z.mod_mod by lia.
  rewrite lor_shiftl_byte.
  - change 65536 with (2 ^ 8 * 2 ^ 8).
    rewrite Z.rem_mul_r by lia. change (2 ^ 8) with 256. ring.
  - apply Z.mod_pos_bound. lia.
  - apply Z.mod_pos_bound. lia.
Qed.

Lemma decode_ack_header (h fill : list byte) :
  decode_pid (ack_header h fill) = decode_pid h.
Proof. reflexivity. Qed.

Lemma hdr_ack_header_type (h fill : list byte) :
  hdr (ack_header h fill) 2 = PING_PACKET_ACK.
Proof. reflexivity. Qed.

(** ** The slave *)

Lemma good_data_iff (f : frame) :
  good_data f = true <->
  rx_header_valid f = true /\ hdr (rx_header f) 2 = PING_PACKET_DATA /\
  rx_payload_valid f = true.
Proof.
  unfold good_data. rewrite !andb_true_iff, Z.eqb_eq. tauto.
Qed.

Section SlaveFacts.

Variable c : config.
Variable w : world.

Lemma slave_frame_sent (f : frame) (s : state) :
  sent (slave_frame w f s) =
  if good_data f then sent s ++ [slave_ack w s f] else sent s.
Proof.
  unfold slave_frame, good_data.
  destruct (rx_header_valid f); simpl; [|reflexivity].
  destruct (hdr (rx_header f) 2 =? PING_PACKET_DATA); simpl; [|reflexivity].
  destruct (rx_payload_valid f); reflexivity.
Qed.

Lemma slave_frame_bytes (f : frame) (s : state) :
  num_bytes_received (slave_frame w f s) =
  if good_data f then wrap64 (num_bytes_received s + rx_payload_len f)
  else num_bytes_received s.
Proof.
  unfold slave_frame, good_data.
  destruct (rx_header_valid f); simpl; [|reflexivity].
  destruct (hdr (rx_header f) 2 =? PING_PACKET_DATA); simpl; [|reflexivity].
  destruct (rx_payload_valid f); reflexivity.
Qed.

Lemma slave_frame_polls (f : frame) (s : state) :
  polls (slave_frame w f s) = polls s.
Proof.
  unfold slave_frame.
  destruct (rx_header_valid f); simpl; [|reflexivity].
  destruct (hdr (rx_header f) 2 =? PING_PACKET_DATA); simpl; [|reflexivity].
  destruct (rx_payload_valid f); reflexivity.
Qed.

Lemma answers_good_data_widen lo hi lo' hi' p :
  (lo' <= lo)%nat -> (hi <= hi')%nat ->
  answers_good_data w lo hi p -> answers_good_data w lo' hi' p.
Proof.
  intros Hlo Hhi (i & f & fill & payload & Hi & H).
  exists i, f, fill, payload. split; [lia|exact H].
Qed.

Lemma slave_loop_sent : forall n s,
  (polls s <= polls (final (slave_loop c w n s)))%nat /\
  exists l,
    sent (final (slave_loop c w n s)) = sent s ++ l /\
    Forall (answers_good_data w (polls s)
              (polls (final (slave_loop c w n s)))) l.
Proof.
  induction n as [|n IH]; intros s.
  - simpl. split; [lia|]. exists []. split; [now rewrite app_nil_r|constructor].
  - simpl. destruct (rx w (polls s)) as [f|] eqn:Erx.
    + set (s1 := mkState (S (polls s)) (rands s) (sent s)
                         (num_bytes_received s) (rx_pid s)).
      set (s2 := slave_frame w f s1).
      assert (Hp2 : polls s2 = S (polls s)) by apply slave_frame_polls.
      assert (Hs2 : exists l0,
                 sent s2 = sent s ++ l0 /\
                 Forall (answers_good_data w (polls s) (S (polls s))) l0).
      { unfold s2. rewrite slave_frame_sent.
        destruct (good_data f) eqn:Eg.
        - exists [slave_ack w s1 f]. split; [reflexivity|].
          constructor; [|constructor].
          apply good_data_iff in Eg. destruct Eg as (Hh & Ht & Hv).
          exists (polls s), f, (fst (rand_bytes w 5 s1)),
                 (fst (rand_bytes w 10 (snd (rand_bytes w 5 s1)))).
          repeat split; try assumption; lia.
        - exists []. split; [now rewrite app_nil_r|constructor]. }
      destruct Hs2 as (l0 & Hl0 & HF0).
      destruct (negb (rx_pid s2 =? wrap32 (num_packets c - 1))).
      * destruct (IH s2) as (Hp & l & Hl & HF).
        split; [lia|].
        exists (l0 ++ l). split; [rewrite Hl, Hl0, app_assoc; reflexivity|].
        apply Forall_app. split.
        -- eapply Forall_impl; [|exact HF0]. intros p.
           apply answers_good_data_widen; lia.
        -- eapply Forall_impl; [|exact HF]. intros p.
           apply answers_good_data_widen; lia.
      * simpl. split; [lia|]. exists l0. split; [exact Hl0|].
        rewrite Hp2. exact HF0.
    + set (s1 := mkState (S (polls s)) (rands s) (sent s)
                         (num_bytes_received s) (rx_pid s)).
      destruct (IH s1) as (Hp & l & Hl & HF). simpl in Hp.
      split; [lia|]. exists l. split; [exact Hl|].
      eapply Forall_impl; [|exact HF]. intros p.
      apply answers_good_data_widen; simpl; lia.
Qed.

End SlaveFacts.

(** C4: the slave transmits an acknowledgement for a frame exactly when the
    frame has a valid header, type DATA and a valid payload; and over a
    whole run, however long, every packet the slave has transmitted answers
    a polled frame that passed these three tests. *)
Theorem slave_acks_only_good_data (c : config) (w : world) :
  (forall f s,
     (rx_header_valid f = true /\ hdr (rx_header f) 2 = PING_PACKET_DATA /\
      rx_payload_valid f = true ->
      sent (slave_frame w f s) = sent s ++ [slave_ack w s f]) /\
     (~ (rx_header_valid f = true /\ hdr (rx_header f) 2 = PING_PACKET_DATA /\
         rx_payload_valid f = true) ->
      sent (slave_frame w f s) = sent s)) /\
  (forall gas,
     Forall (answers_good_data w 0 (polls (final (slave c w gas))))
            (sent (final (slave c w gas)))).
Proof.
  split.
  - intros f s. rewrite slave_frame_sent. split; intros H.
    + apply good_data_iff in H. now rewrite H.
    + destruct (good_data f) eqn:E; [|reflexivity].
      apply good_data_iff in E. contradiction.
  - intros gas. unfold slave.
    destruct (slave_loop_sent c w gas init_state) as (_ & l & Hl & HF).
    rewrite Hl. exact HF.
Qed.

(** C5: the acknowledgement the slave transmits for a frame it accepts
    carries the frame's two id bytes, hence the same id; the master accepts
    a frame exactly when it is a valid ACK whose decoded id is the
    outstanding one, so a frame accepted for one id is an id mismatch for
    every other id, a wait reports an acknowledgement only for a polled
    frame that passes this test, and repeated acknowledgements of an
    earlier id never end the wait for the next one.  A data packet with an
    id below 2^16 that arrives undamaged is answered by an acknowledgement
    which, arriving undamaged, is accepted for that id and for no other. *)
Theorem ack_id_correlation (c : config) (w : world) :
  (forall f s,
     rx_header_valid f = true /\ hdr (rx_header f) 2 = PING_PACKET_DATA /\
     rx_payload_valid f = true ->
     sent (slave_frame w f s) = sent s ++ [slave_ack w s f] /\
     nth 0 (tx_header (slave_ack w s f)) x00 = nth 0 (rx_header f) x00 /\
     nth 1 (tx_header (slave_ack w s f)) x00 = nth 1 (rx_header f) x00 /\
     hdr (tx_header (slave_ack w s f)) 2 = PING_PACKET_ACK /\
     decode_pid (tx_header (slave_ack w s f)) = decode_pid (rx_header f)) /\
  (forall f k,
     master_check f k = Accepted <->
     rx_header_valid f = true /\ hdr (rx_header f) 2 = PING_PACKET_ACK /\
     rx_payload_valid f = true /\ decode_pid (rx_header f) = k) /\
  (forall f k k',
     master_check f k = Accepted -> k' <> k ->
     master_check f k' = IdMismatch) /\
  (forall gas k timer s s',
     await_ack c w gas k timer false s = Ret true s' ->
     exists i f, (polls s <= i < polls s')%nat /\ rx w i = Some f /\
                 master_check f k = Accepted) /\
  (forall gas k k' timer s s',
     k' <> k ->
     (forall i f, rx w i = Some f -> master_check f k = Accepted) ->
     await_ack c w gas k' timer false s <> Ret true s') /\
  (forall k fill payload s,
     0 <= k < 65536 ->
     let d := delivered (mkPacket (data_header k fill) payload) in
     good_data d = true /\
     master_check (delivered (slave_ack w s d)) k = Accepted /\
     forall k', k' <> k ->
                master_check (delivered (slave_ack w s d)) k' = IdMismatch).
Proof.
  assert (Hawait : forall gas k timer s s',
             await_ack c w gas k timer false s = Ret true s' ->
             exists i f, (polls s <= i < polls s')%nat /\ rx w i = Some f /\
                         master_check f k = Accepted).
  { intros gas k timer s s' E.
    pose proof (await_ack_sound c w k gas timer false s) as Hs.
    cbv zeta in Hs. destruct Hs as (_ & _ & Hs).
    destruct (Hs s' E) as [?|(i & Hi & Hacc)]; [discriminate|].
    unfold accepts in Hacc. destruct (rx w i) as [f|] eqn:Erx; [|discriminate].
    exists i, f. split; [exact Hi|]. split; [exact Erx|].
    destruct (master_check f k); try discriminate. reflexivity. }
  split; [|split; [|split; [|split; [|split]]]].
  - intros f s H. split.
    + rewrite slave_frame_sent. apply good_data_iff in H. now rewrite H.
    + repeat split.
  - intros f k. apply master_check_accepted.
  - intros f k k'. apply master_check_other_id.
  - exact Hawait.
  - intros gas k k' timer s s' Hk Hall E.
    destruct (Hawait gas k' timer s s' E) as (i & f & _ & Erx & Hacc).
    specialize (Hall i f Erx).
    rewrite (master_check_other_id f k k' Hall Hk) in Hacc. discriminate.
  - intros k fill payload s Hk d.
    assert (Hacc : master_check (delivered (slave_ack w s d)) k = Accepted).
    { apply master_check_accepted. simpl.
      split; [reflexivity|]. split; [reflexivity|]. split; [reflexivity|].
      rewrite decode_ack_header. unfold d. simpl.
      rewrite decode_data_header. apply Z.mod_small. lia. }
    split; [reflexivity|]. split; [exact Hacc|].
    intros k' Hk'. now apply master_check_other_id with (k := k).
Qed.

(** ** Runs on which the program departs from its description *)

(** C1: two packets, one attempt allowed each.  The acknowledgement of
    packet 0 is accepted at the first poll of the first (and last allowed)
    attempt and its payload is counted, yet the master bails: the test after
    the attempts compares the counter with the limit and does not look at
    [ack_received].  Packet 1 is never transmitted. *)
Theorem master_bails_after_ack_on_last_attempt :
  accepts prompt_ack_world 0 0 = true /\
  exists s p0,
    master two_packets_one_attempt prompt_ack_world 240 = Ret Bailed s /\
    sent s = [p0] /\ decode_pid (tx_header p0) = 0 /\
    polls s = 1%nat /\ num_bytes_received s = 200.
Proof.
  split; [reflexivity|].
  eexists. eexists. split; [vm_compute; reflexivity|].
  repeat split.
Qed.

(** C3: two packets, attempt limit 0.  The receiver never finds a frame.
    The master transmits packet 0 once, times out, and goes on to transmit
    packet 1, although no acknowledgement was accepted and the attempt
    counter (1) is past the limit: the counter is only compared for equality
    with the limit.  The packet loop runs to its end. *)
Theorem master_advances_without_ack :
  exists s p0 p1,
    master two_packets_no_attempt silent_world 240 = Ret Completed s /\
    sent s = [p0; p1] /\
    decode_pid (tx_header p0) = 0 /\ decode_pid (tx_header p1) = 1 /\
    polls s = 480%nat /\ num_bytes_received s = 0.
Proof.
  eexists. eexists. eexists. split; [vm_compute; reflexivity|].
  repeat split.
Qed.

(** C2: a discarded frame does lead to the test of the loop condition
    ([continue] inside do-while), with whatever [rx_pid] holds.  Expecting
    one packet, the slave stops at the first frame although its header is
    invalid ([rx_pid] is still 0 = [num_packets - 1]); expecting three, it
    stops at data frame 2 although its payload is invalid.  In both runs it
    stops after one poll, nothing was acknowledged and no byte counted. *)
Theorem slave_stops_on_discarded_frame :
  (good_data bad_header_frame = false /\
   exists s, slave one_packet bad_header_world 10 = Ret tt s /\
             polls s = 1%nat /\ sent s = [] /\ num_bytes_received s = 0) /\
  (good_data bad_payload_frame = false /\
   exists s, slave three_packets bad_payload_world 10 = Ret tt s /\
             polls s = 1%nat /\ sent s = [] /\ num_bytes_received s = 0).
Proof.
  split; (split; [reflexivity|]);
    (eexists; split; [vm_compute; reflexivity|repeat split]).
Qed.

(** What does hold for a discarded frame: nothing is transmitted and the
    byte count stays. *)
Lemma slave_discard_silent (w : world) (f : frame) (s : state) :
  good_data f = false ->
  sent (slave_frame w f s) = sent s /\
  num_bytes_received (slave_frame w f s) = num_bytes_received s /\
  polls (slave_frame w f s) = polls s.
Proof.
  intros H. rewrite slave_frame_sent, slave_frame_bytes, slave_frame_polls, H.
  repeat split.
Qed.

(** What does hold for the master when at least one attempt is allowed: it
    goes on to the next packet only after an accepted acknowledgement. *)
Lemma master_advance_needs_ack (c : config) (w : world) (gas n : nat)
      (k : Z) (h p : list byte) (s s' : state) (r : bool * Z) :
  1 <= max_num_attempts c < 2 ^ 32 ->
  attempts c w gas n k h p 0 s = Ret r s' ->
  snd r <> max_num_attempts c ->
  fst r = true /\ exists i, accepts w k i = true.
Proof.
  intros Hmax E Hne.
  apply attempts_result in E; [|lia|lia].
  destruct E as [(_ & Hr)|(_ & Hr)]; [exact Hr|contradiction].
Qed.

(** ** Statistics at a zero elapsed time *)

Lemma runtime_same_instant (t : timeval) : runtime t t = S754_zero false.
Proof.
  unfold runtime. rewrite !Z.sub_diag. reflexivity.
Qed.

Lemma f32_div_by_zero (x : float32) (sz : bool) :
  f32_div x (S754_zero sz) = S754_nan \/
  exists sgn, f32_div x (S754_zero sz) = S754_infinity sgn.
Proof.
  destruct x as [sx|sx| |sx mx ex]; simpl.
  - now left.
  - right. now exists (xorb sx sz).
  - now left.
  - right. now exists (xorb sx sz).
Qed.

(** *** Rounding keeps a positive number positive

    A right shift by fewer places than the mantissa has digits leaves a
    positive mantissa, and so does rounding to nearest even: a positive
    number is rounded to a positive finite number or to +infinity. *)
Lemma shr_1_lower (mrs : shr_record) (a : Z) :
  0 <= a -> 2 * a <= shr_m mrs -> a <= shr_m (shr_1 mrs).
Proof.
  intros Ha H. destruct mrs as [m r s]. cbn [shr_m] in H.
  destruct m as [|[p|p|]|p]; cbn [shr_1 shr_m];
    try pose proof (Pos2Z.inj_xI p); try pose proof (Pos2Z.inj_xO p);
    try pose proof (Pos2Z.neg_is_neg p); lia.
Qed.

Lemma iter_shr_1_lower : forall (p : positive) (mrs : shr_record) (a : Z),
  0 <= a -> 2 ^ Z.pos p * a <= shr_m mrs ->
  a <= shr_m (iter_pos shr_1 p mrs).
Proof.
  induction p as [p IH|p IH|]; intros mrs a Ha H; simpl.
  - assert (E : 2 ^ Z.pos p~1 = 2 * (2 ^ Z.pos p * 2 ^ Z.pos p)).
    { rewrite (Pos2Z.inj_xI p).
      replace (2 * Z.pos p + 1) with (1 + (Z.pos p + Z.pos p)) by lia.
      rewrite !Z.pow_add_r by lia. reflexivity. }
    rewrite E in H.
    assert (0 < 2 ^ Z.pos p) by (apply Z.pow_pos_nonneg; lia).
    apply IH; [exact Ha|]. apply IH; [nia|].
    apply shr_1_lower; nia.
  - assert (E : 2 ^ Z.pos p~0 = 2 ^ Z.pos p * 2 ^ Z.pos p).
    { rewrite (Pos2Z.inj_xO p).
      replace (2 * Z.pos p) with (Z.pos p + Z.pos p) by lia.
      now rewrite Z.pow_add_r by lia. }
    rewrite E in H.
    assert (0 < 2 ^ Z.pos p) by (apply Z.pow_pos_nonneg; lia).
    apply IH; [exact Ha|]. apply IH; nia.
  - apply shr_1_lower; [exact Ha|]. change (2 ^ 1) with 2 in H. lia.
Qed.

Lemma digits2_pos_lower (m : positive) :
  2 ^ (Z.pos (digits2_pos m) - 1) <= Z.pos m.
Proof.
  induction m as [m IH|m IH|]; simpl digits2_pos;
    try (rewrite Pos2Z.inj_succ;
         replace (Z.succ (Z.pos (digits2_pos m)) - 1)
           with (Z.succ (Z.pos (digits2_pos m) - 1)) by lia;
         rewrite Z.pow_succ_r by lia; lia).
  simpl. lia.
Qed.

Lemma shr_fexp_positive (m : positive) (e : Z) (l : location) :
  -149 <= e ->
  1 <= shr_m (fst (shr_fexp 24 128 (Z.pos m) e l)) /\
  e <= snd (shr_fexp 24 128 (Z.pos m) e l).
Proof.
  intros He. unfold shr_fexp, shr, fexp, emin. simpl Zdigits2.
  assert (Hm : shr_m (shr_record_of_loc (Z.pos m) l) = Z.pos m)
    by (destruct l as [|[]]; reflexivity).
  destruct (Z.max (Z.pos (digits2_pos m) + e - 24) (3 - 128 - 24) - e)
    as [|p|p] eqn:En; simpl; rewrite ?Hm; try lia.
  split; [|lia].
  apply iter_shr_1_lower; [lia|]. rewrite Hm, Z.mul_1_r.
  transitivity (2 ^ (Z.pos (digits2_pos m) - 1));
    [|apply digits2_pos_lower].
  apply Z.pow_le_mono_r; lia.
Qed.

Lemma round_nearest_even_positive (mx : Z) (lx : location) :
  1 <= mx -> 1 <= round_nearest_even mx lx.
Proof.
  intros H. destruct lx as [|[]]; simpl; try lia.
  destruct (Z.even mx); lia.
Qed.

Lemma binary_round_aux_positive (sx : bool) (m : positive) (e : Z)
      (l : location) :
  -149 <= e ->
  binary_round_aux 24 128 sx (Z.pos m) e l = S754_infinity sx \/
  exists m' e', binary_round_aux 24 128 sx (Z.pos m) e l = S754_finite sx m' e'
                /\ e <= e'.
Proof.
  intros He. unfold binary_round_aux.
  destruct (shr_fexp_positive m e l He) as (H1 & H2).
  destruct (shr_fexp 24 128 (Z.pos m) e l) as [mrs' e'].
  simpl in H1, H2.
  pose proof (round_nearest_even_positive (shr_m mrs')
                (loc_of_shr_record mrs') H1) as H3.
  destruct (round_nearest_even (shr_m mrs') (loc_of_shr_record mrs'))
    as [|q|q]; try lia.
  destruct (shr_fexp_positive q e' loc_Exact ltac:(lia)) as (H4 & H5).
  destruct (shr_fexp 24 128 (Z.pos q) e' loc_Exact) as [mrs'' e''].
  simpl in H4, H5.
  destruct (shr_m mrs'') as [|r|r]; try lia.
  destruct (e'' <=? 128 - 24); [right|left; reflexivity].
  exists r, e''. split; [reflexivity|lia].
Qed.

Lemma f32_of_Z_positive (n : Z) :
  0 < n ->
  f32_of_Z n = S754_infinity false \/
  exists m e, f32_of_Z n = S754_finite false m e /\ -23 <= e.
Proof.
  intros Hn. destruct n as [|p|p]; try lia.
  unfold f32_of_Z, binary_normalize, binary_round, shl_align, fexp, emin.
  assert (Hd : 1 <= Z.pos (digits2_pos p)) by lia.
  destruct (Z.max (Z.pos (digits2_pos p) + 0 - 24) (3 - 128 - 24) - 0)
    as [|d|d] eqn:Ed.
  - destruct (binary_round_aux_positive false p 0 loc_Exact ltac:(lia))
      as [H|(m & e & H & He)]; [now left|right].
    exists m, e. split; [exact H|lia].
  - destruct (binary_round_aux_positive false p 0 loc_Exact ltac:(lia))
      as [H|(m & e & H & He)]; [now left|right].
    exists m, e. split; [exact H|lia].
  - destruct (binary_round_aux_positive false (Pos.iter xO p d)
                (Z.max (Z.pos (digits2_pos p) + 0 - 24) (3 - 128 - 24))
                loc_Exact ltac:(lia))
      as [H|(m & e & H & He)]; [now left|right].
    exists m, e. split; [exact H|lia].
Qed.

Lemma data_rate_positive_zero (n : Z) :
  0 < n -> data_rate n (S754_zero false) = S754_infinity false.
Proof.
  intros Hn. unfold data_rate.
  destruct (f32_of_Z_positive n Hn) as [H|(m & e & H & He)]; rewrite H.
  - reflexivity.
  - unfold f32_mul, f32_8, SFmul.
    destruct (binary_round_aux_positive (xorb false false)
                (8388608 * m) (-20 + e) loc_Exact ltac:(lia))
      as [H'|(m' & e' & H' & _)]; rewrite H'; reflexivity.
Qed.

(** C8, as the claim states it, fails: with start and end time equal and
    200 bytes transferred, the division is carried out with a zero divisor
    and the data rate and the spectral efficiency are both +infinity,
    neither zero nor NaN. *)
Lemma statistics_zero_elapsed_infinite :
  runtime (mkTimeval 5 7) (mkTimeval 5 7) = S754_zero false /\
  data_rate 200 (runtime (mkTimeval 5 7) (mkTimeval 5 7)) =
  S754_infinity false /\
  spectral_efficiency
    (data_rate 200 (runtime (mkTimeval 5 7) (mkTimeval 5 7))) f32_200e3 =
  S754_infinity false.
Proof.
  repeat split; vm_compute; reflexivity.
Qed.

(** C8, amended: the statistics are computed without any test of the
    elapsed time.  The data rate is the single-precision quotient of eight
    times the byte count by the run time; when the two times are equal the
    run time is zero and the quotient is never zero or another finite
    number: it is NaN when no byte was transferred and +infinity for every
    positive byte count.  The spectral efficiency is the quotient of that
    value by the bandwidth. *)
Theorem statistics_division_unguarded (nbytes : Z) (t : timeval)
        (bandwidth : float32) :
  runtime t t = S754_zero false /\
  data_rate nbytes (runtime t t) =
  f32_div (f32_mul f32_8 (f32_of_Z nbytes)) (S754_zero false) /\
  (data_rate nbytes (runtime t t) = S754_nan \/
   exists sgn, data_rate nbytes (runtime t t) = S754_infinity sgn) /\
  data_rate 0 (runtime t t) = S754_nan /\
  (0 < nbytes -> data_rate nbytes (runtime t t) = S754_infinity false) /\
  data_rate 200 (runtime t t) = S754_infinity false /\
  spectral_efficiency (data_rate nbytes (runtime t t)) bandwidth =
  f32_div (data_rate nbytes (runtime t t)) bandwidth.
Proof.
  rewrite runtime_same_instant.
  split; [reflexivity|]. split; [reflexivity|].
  split; [apply f32_div_by_zero|].
  split; [reflexivity|].
  split; [apply data_rate_positive_zero|].
  split; reflexivity.
Qed.

(** * Further properties of the master *)

Lemma rand_bytes_length (w : world) (n : nat) (s : state) :
  length (fst (rand_bytes w n s)) = n.
Proof. simpl. now rewrite length_map, length_seq. Qed.

Lemma wrap32_small (z : Z) : 0 <= z < 2 ^ 32 -> wrap32 z = z.
Proof. intros H. unfold wrap32. now apply Z.mod_small. Qed.

Lemma wrap64_add_l (a b : Z) : wrap64 (wrap64 a + b) = wrap64 (a + b).
Proof. unfold wrap64. apply Zplus_mod_idemp_l. Qed.

Section AttemptsShape.

Variable c : config.
Variable w : world.
Variable gas : nat.
Variable k : Z.
Variables h p : list byte.

Hypothesis limit_fits : max_num_attempts c < 2 ^ 32.

(** The attempts for one packet transmit it [m] times in a row, where [m]
    is what the counter has advanced by; a second transmission is made only
    below the limit; the payload length is counted once, if an
    acknowledgement was accepted, and not at all otherwise. *)
Lemma attempts_shape : forall n a s,
  0 <= a < 2 ^ 32 - 1 ->
  exists m,
    sent (final (attempts c w gas n k h p a s)) =
    sent s ++ repeat (mkPacket h p) m /\
    Z.of_nat m <= Z.max 1 (max_num_attempts c - a) /\
    forall b a' s',
      attempts c w gas n k h p a s = Ret (b, a') s' ->
      (1 <= m)%nat /\ a' = a + Z.of_nat m /\
      (b = false -> max_num_attempts c <= a') /\
      rands s' = rands s /\
      num_bytes_received s' =
      if b then wrap64 (num_bytes_received s + tx_payload_len c)
      else num_bytes_received s.
Proof.
  induction n as [|n IH]; intros a s Ha.
  - exists 0%nat. simpl. rewrite app_nil_r.
    split; [reflexivity|]. split; [lia|]. discriminate.
  - rewrite attempts_eq, (wrap32_small (a + 1)) by lia.
    pose proof (await_ack_sound c w k gas 0 false (iqpr_txpacket h p s)) as Hs.
    cbv zeta in Hs. destruct Hs as ((Hr & Hsent & Hb) & _).
    destruct (await_ack c w gas k 0 false (iqpr_txpacket h p s))
      as [ack s2|s2]; simpl in Hr, Hsent, Hb; cbn [bind].
    + destruct ack.
      * exists 1%nat. cbn [final]. split; [exact Hsent|]. split; [lia|].
        intros b a' s' E. injection E as <- <- <-.
        split; [lia|]. split; [lia|]. split; [discriminate|].
        split; [exact Hr|]. simpl. now rewrite Hb.
      * destruct (Z.ltb_spec (a + 1) (max_num_attempts c)) as [Hlt|Hge].
        -- destruct (IH (a + 1) s2 ltac:(lia)) as (m & Hm & Hle & Hret).
           exists (S m). split.
           { rewrite Hm, Hsent, <- app_assoc. reflexivity. }
           split; [lia|].
           intros b a' s' E. destruct (Hret b a' s' E) as (H1 & H2 & H3 & H4 & H5).
           split; [lia|]. split; [lia|]. split; [exact H3|].
           split; [congruence|]. rewrite H5, Hb. reflexivity.
        -- exists 1%nat. cbn [final]. split; [exact Hsent|]. split; [lia|].
           intros b a' s' E. injection E as <- <- <-.
           split; [lia|]. split; [lia|]. split; [lia|].
           split; [exact Hr|exact Hb].
    + exists 1%nat. cbn [final]. split; [exact Hsent|]. split; [lia|].
      discriminate.
Qed.

End AttemptsShape.

Section MasterShape.

Variable c : config.
Variable w : world.
Variable gas : nat.

Hypothesis limit_fits : max_num_attempts c < 2 ^ 32.
Hypothesis count_fits : num_packets c < 2 ^ 32.

(** Allowed at least one iteration, the attempts for a packet transmit it
    at least once. *)
Lemma attempts_transmits k h p : forall n a s,
  (1 <= n)%nat ->
  (length (sent s) <
   length (sent (final (attempts c w gas n k h p a s))))%nat.
Proof.
  intros n a s Hn. destruct n as [|n]; [lia|]. rewrite attempts_eq.
  pose proof (await_ack_sound c w k gas 0 false (iqpr_txpacket h p s)) as Hs.
  cbv zeta in Hs. destruct Hs as ((_ & Hsent & _) & _).
  assert (Hlen : forall s2, sent s2 = sent (iqpr_txpacket h p s) ->
                            (length (sent s) < length (sent s2))%nat).
  { intros s2 E. rewrite E. simpl. rewrite length_app. simpl. lia. }
  destruct (await_ack c w gas k 0 false (iqpr_txpacket h p s))
    as [ack s2|s2]; cbn [bind final] in Hsent |- *.
  - destruct ack; [exact (Hlen _ Hsent)|].
    destruct (wrap32 (a + 1) <? max_num_attempts c); [|exact (Hlen _ Hsent)].
    destruct (attempts_sent c w gas k h p n (wrap32 (a + 1)) s2) as (m & Hm).
    rewrite Hm, length_app. specialize (Hlen _ Hsent). lia.
  - exact (Hlen _ Hsent).
Qed.

Lemma packet_in_order (k : Z) (s : state) (m : nat) bs :
  1 <= Z.of_nat m <= Z.max 1 (max_num_attempts c) ->
  in_order c (k + 1) bs ->
  in_order c k
    ((mkPacket (packet_header w k s) (packet_payload c w s), m) :: bs).
Proof.
  intros Hm Hbs. simpl. split.
  - exists (map (fun i => to_uchar (rand w (rands s + i))) (seq 0 5)).
    split; reflexivity.
  - split; [unfold packet_payload; apply rand_bytes_length|].
    split; assumption.
Qed.

Lemma master_loop_shape : forall n k s,
  0 <= k -> (1 <= gas)%nat ->
  exists bs,
    sent (final (master_loop c w gas n k s)) = sent s ++ bursts bs /\
    in_order c k bs /\
    Z.of_nat (length bs) <= Z.max 0 (num_packets c - k) /\
    ((1 <= n)%nat -> k < num_packets c -> bs <> []) /\
    forall s', master_loop c w gas n k s = Ret Completed s' ->
               Z.of_nat (length bs) = Z.max 0 (num_packets c - k).
Proof.
  induction n as [|n IH]; intros k s Hk Hgas.
  - exists []. simpl. rewrite app_nil_r.
    split; [now destruct (k <? num_packets c)|]. split; [exact I|].
    split; [lia|]. split; [lia|].
    intros s' E. destruct (Z.ltb_spec k (num_packets c)); [discriminate|].
    simpl. lia.
  - rewrite master_loop_eq.
    destruct (Z.ltb_spec k (num_packets c)) as [Hlt|Hge].
    + destruct (attempts_shape c w gas k (packet_header w k s)
                  (packet_payload c w s) limit_fits gas 0
                  (packet_state c w s) ltac:(lia)) as (m & Hm & Hle & _).
      pose proof (attempts_transmits k (packet_header w k s)
                    (packet_payload c w s) gas 0 (packet_state c w s) Hgas)
        as Hone.
      rewrite Hm, length_app, repeat_length in Hone.
      assert (Hrange : 1 <= Z.of_nat m <= Z.max 1 (max_num_attempts c))
        by lia.
      clear Hone Hle. simpl sent at 2 in Hm.
      destruct (attempts c w gas gas k (packet_header w k s)
                         (packet_payload c w s) 0 (packet_state c w s))
        as [r s3|s3]; cbn [bind final] in Hm |- *.
      * destruct (snd r =? max_num_attempts c).
        -- exists [(mkPacket (packet_header w k s) (packet_payload c w s), m)].
           cbn [final]. split.
           { rewrite Hm. unfold bursts, burst. simpl. now rewrite app_nil_r. }
           split; [apply packet_in_order; [exact Hrange|exact I]|].
           split; [simpl; lia|]. split; [discriminate|discriminate].
        -- rewrite wrap32_small by lia.
           destruct (IH (k + 1) s3 ltac:(lia) Hgas)
             as (bs & Hbs & Hord & Hlen & _ & Hdone).
           exists ((mkPacket (packet_header w k s) (packet_payload c w s), m)
                     :: bs).
           split.
           { rewrite Hbs, Hm, <- app_assoc. reflexivity. }
           split; [apply packet_in_order; assumption|].
           split; [simpl length; lia|]. split; [discriminate|].
           intros s' E. specialize (Hdone s' E). simpl length. lia.
      * exists [(mkPacket (packet_header w k s) (packet_payload c w s), m)].
        split.
        { rewrite Hm. unfold bursts, burst. simpl. now rewrite app_nil_r. }
        split; [apply packet_in_order; [exact Hrange|exact I]|].
        split; [simpl; lia|]. split; [discriminate|discriminate].
    + exists []. simpl. rewrite app_nil_r. split; [reflexivity|].
      split; [exact I|]. split; [lia|]. split; [lia|].
      intros s' _. lia.
Qed.

Lemma bursts_length (k : Z) : forall bs,
  in_order c k bs ->
  (length (bursts bs) <=
   length bs * Z.to_nat (Z.max 1 (max_num_attempts c)))%nat.
Proof.
  intros bs. revert k.
  induction bs as [|[p m] bs IH]; intros k Hord; [simpl; lia|].
  destruct Hord as (_ & _ & Hm & Hord). simpl in Hm.
  specialize (IH (k + 1) Hord).
  unfold bursts in *. simpl. rewrite length_app. unfold burst at 1. simpl.
  rewrite repeat_length. lia.
Qed.

Hypothesis timespec_pos : 0 < timespec c.
Hypothesis timeout_nonneg : 0 <= ack_timeout c.
Hypothesis timer_fits : ack_timeout c + timespec c <= 2 ^ 32.
Hypothesis gas_window : (window c <= gas)%nat.

(** With enough iterations allowed, the attempts for a packet end, and no
    more than [window] polls are made per transmission. *)
Lemma attempts_returns k h p : forall n a s,
  0 <= a < 2 ^ 32 - 1 ->
  Z.max 1 (max_num_attempts c - a) <= Z.of_nat n ->
  exists r s',
    attempts c w gas n k h p a s = Ret r s' /\
    (polls s' + window c * length (sent s) <=
     polls s + window c * length (sent s'))%nat.
Proof.
  induction n as [|n IH]; intros a s Ha Hn; [lia|].
  rewrite attempts_eq, (wrap32_small (a + 1)) by lia.
  destruct (window_spec c timespec_pos) as (Hw & _).
  destruct (await_ack_returns c w k timespec_pos timer_fits (window c) gas 0
              false (iqpr_txpacket h p s) ltac:(lia) ltac:(lia) gas_window)
    as (b & s1 & E & Hp).
  pose proof (await_ack_sound c w k gas 0 false (iqpr_txpacket h p s)) as Hs.
  cbv zeta in Hs. destruct Hs as ((_ & Hsent & _) & _).
  rewrite E in Hsent |- *. simpl in Hsent, Hp. cbn [bind].
  assert (Hlen : length (sent s1) = S (length (sent s)))
    by (rewrite Hsent, length_app; simpl; lia).
  destruct b.
  - eexists. eexists. split; [reflexivity|]. simpl. nia.
  - destruct (Z.ltb_spec (a + 1) (max_num_attempts c)) as [Hlt|Hge].
    + destruct (IH (a + 1) s1 ltac:(lia) ltac:(lia)) as (r & s' & E' & Hp').
      exists r, s'. split; [exact E'|]. nia.
    + eexists. eexists. split; [reflexivity|]. nia.
Qed.

Lemma master_loop_returns : forall n k s,
  0 <= k ->
  Z.max 1 (max_num_attempts c) <= Z.of_nat gas ->
  Z.max 0 (num_packets c - k) <= Z.of_nat n ->
  exists e s',
    master_loop c w gas n k s = Ret e s' /\
    (polls s' + window c * length (sent s) <=
     polls s + window c * length (sent s'))%nat.
Proof.
  induction n as [|n IH]; intros k s Hk Hg Hn.
  - exists Completed, s. split; [apply master_loop_done; lia|lia].
  - rewrite master_loop_eq.
    destruct (Z.ltb_spec k (num_packets c)) as [Hlt|Hge].
    + destruct (attempts_returns k (packet_header w k s)
                  (packet_payload c w s) gas 0 (packet_state c w s)
                  ltac:(lia) ltac:(lia)) as (r & s3 & E & Hp).
      rewrite E. cbn [bind]. simpl in Hp.
      destruct (snd r =? max_num_attempts c).
      * exists Bailed, s3. split; [reflexivity|exact Hp].
      * rewrite wrap32_small by lia.
        destruct (IH (k + 1) s3 ltac:(lia) Hg ltac:(lia))
          as (e & s' & E' & Hp').
        exists e, s'. split; [exact E'|lia].
    + exists Completed, s. split; [reflexivity|lia].
Qed.

End MasterShape.

(** X1: the master always comes to an end, whatever the receiver finds:
    allowed as many iterations per loop as the window, the attempt limit and
    the packet count require, it leaves its packet loop.  The polls it has
    made are then, in total, at most [window] times the transmissions it
    has made, and these are, in total, at most [num_packets] times [max(1,
    max_num_attempts)]. *)
Theorem master_terminates (c : config) (w : world) (gas : nat) :
  max_num_attempts c < 2 ^ 32 -> num_packets c < 2 ^ 32 ->
  0 < timespec c -> 0 <= ack_timeout c ->
  ack_timeout c + timespec c <= 2 ^ 32 ->
  (window c <= gas)%nat ->
  Z.max 1 (max_num_attempts c) <= Z.of_nat gas ->
  num_packets c <= Z.of_nat gas ->
  exists e s,
    master c w gas = Ret e s /\
    (polls s <= window c * length (sent s))%nat /\
    (length (sent s) <=
     Z.to_nat (Z.max 0 (num_packets c)) *
     Z.to_nat (Z.max 1 (max_num_attempts c)))%nat.
Proof.
  intros Hmax Hn HT HA Hfit Hgw Hga Hgn.
  destruct (master_loop_returns c w gas Hmax Hn HT HA Hfit Hgw gas 0
              init_state ltac:(lia) Hga ltac:(lia)) as (e & s & E & Hp).
  destruct (master_loop_shape c w gas Hmax Hn gas 0 init_state ltac:(lia)
              ltac:(lia)) as (bs & Hbs & Hord & Hlen & _).
  unfold master. rewrite E in Hbs |- *. simpl in Hbs, Hp.
  exists e, s. split; [reflexivity|]. split; [lia|].
  rewrite Hbs.
  pose proof (bursts_length c 0 bs Hord) as Hb.
  rewrite Z.sub_0_r in Hlen.
  assert (length bs <= Z.to_nat (Z.max 0 (num_packets c)))%nat by lia.
  nia.
Qed.

Lemma master_terminates_witness :
  (max_num_attempts default_config < 2 ^ 32 /\
   num_packets default_config < 2 ^ 32 /\
   0 < timespec default_config /\ 0 <= ack_timeout default_config /\
   ack_timeout default_config + timespec default_config <= 2 ^ 32 /\
   (window default_config <= 500)%nat /\
   Z.max 1 (max_num_attempts default_config) <= Z.of_nat 500 /\
   num_packets default_config <= Z.of_nat 500) /\
  exists e s, master default_config late_ack_world 500 = Ret e s /\
              (polls s <= 240 * length (sent s))%nat.
Proof.
  assert (H1 : max_num_attempts default_config < 2 ^ 32)
    by (vm_compute; reflexivity).
  assert (H2 : num_packets default_config < 2 ^ 32)
    by (vm_compute; reflexivity).
  assert (H3 : 0 < timespec default_config) by (vm_compute; reflexivity).
  assert (H4 : 0 <= ack_timeout default_config) by (vm_compute; discriminate).
  assert (H5 : ack_timeout default_config + timespec default_config <= 2 ^ 32)
    by (vm_compute; discriminate).
  assert (H6 : (window default_config <= 500)%nat) by (vm_compute; lia).
  assert (H7 : Z.max 1 (max_num_attempts default_config) <= Z.of_nat 500)
    by (vm_compute; discriminate).
  assert (H8 : num_packets default_config <= Z.of_nat 500)
    by (vm_compute; discriminate).
  split; [repeat split; assumption|].
  destruct (master_terminates default_config late_ack_world 500
              H1 H2 H3 H4 H5 H6 H7 H8) as (e & s & E & Hp & _).
  exists e, s. split; [exact E|exact Hp].
Defined.

(** X2: what the master transmits, in any run and however far it gets, is
    a sequence of bursts, one per packet id in the order 0, 1, 2, ..., with
    no id left out: each burst repeats one and the same data packet (8-byte
    header, payload of the configured length) at least once and at most as
    often as the attempt limit allows, and there are at most [num_packets]
    bursts.  A run allowed at least one iteration with a packet to send has
    at least one burst, and a run that leaves the packet loop at its end has
    exactly [num_packets] bursts: every id has been transmitted. *)
Theorem master_trace_in_order (c : config) (w : world) (gas : nat) :
  max_num_attempts c < 2 ^ 32 -> num_packets c < 2 ^ 32 ->
  exists bs,
    sent (final (master c w gas)) = bursts bs /\
    in_order c 0 bs /\
    Z.of_nat (length bs) <= Z.max 0 (num_packets c) /\
    ((1 <= gas)%nat -> 1 <= num_packets c -> bs <> []) /\
    (forall s, master c w gas = Ret Completed s ->
               Z.of_nat (length bs) = Z.max 0 (num_packets c)).
Proof.
  intros Hmax Hn. destruct (Nat.eq_dec gas 0) as [E0|Hne].
  - exists []. rewrite E0. unfold master. simpl.
    split; [now destruct (0 <? num_packets c)|]. split; [exact I|].
    split; [lia|]. split; [lia|].
    intros s E. destruct (Z.ltb_spec 0 (num_packets c)); [discriminate|].
    simpl. lia.
  - destruct (master_loop_shape c w gas Hmax Hn gas 0 init_state ltac:(lia)
                ltac:(lia)) as (bs & Hbs & Hord & Hlen & Hsome & Hdone).
    rewrite Z.sub_0_r in Hlen, Hdone.
    exists bs. split; [exact Hbs|]. split; [exact Hord|].
    split; [exact Hlen|]. split; [|exact Hdone].
    intros Hg HN. apply Hsome; lia.
Qed.

Lemma master_trace_in_order_witness :
  (max_num_attempts two_packets_no_attempt < 2 ^ 32 /\
   num_packets two_packets_no_attempt < 2 ^ 32) /\
  exists bs,
    sent (final (master two_packets_no_attempt silent_world 240)) =
    bursts bs /\
    in_order two_packets_no_attempt 0 bs /\
    length bs = 2%nat.
Proof.
  assert (H1 : max_num_attempts two_packets_no_attempt < 2 ^ 32)
    by (vm_compute; reflexivity).
  assert (H2 : num_packets two_packets_no_attempt < 2 ^ 32)
    by (vm_compute; reflexivity).
  split; [split; assumption|].
  destruct (master_trace_in_order two_packets_no_attempt silent_world 240
              H1 H2) as (bs & Hbs & Hord & _ & _ & Hdone).
  assert (H3 : exists s, master two_packets_no_attempt silent_world 240
                         = Ret Completed s)
    by (eexists; vm_compute; reflexivity).
  destruct H3 as (s & E). specialize (Hdone s E).
  change (Z.max 0 (num_packets two_packets_no_attempt)) with 2 in Hdone.
  exists bs. split; [exact Hbs|]. split; [exact Hord|lia].
Defined.

Section MasterOutcome.

Variable c : config.
Variable w : world.
Variable gas : nat.

(** An acknowledgement reported by the attempts for packet [k] stems from a
    frame polled during these attempts. *)
Lemma attempts_acked k h p : forall n a s b a' s',
  attempts c w gas n k h p a s = Ret (b, a') s' ->
  (polls s <= polls s')%nat /\
  (b = true ->
   exists i, (polls s <= i < polls s')%nat /\ accepts w k i = true).
Proof.
  induction n as [|n IH]; intros a s b a' s' E; [discriminate|].
  rewrite attempts_eq in E.
  pose proof (await_ack_sound c w k gas 0 false (iqpr_txpacket h p s)) as Hs.
  cbv zeta in Hs. destruct Hs as (_ & Hp & Hs).
  destruct (await_ack c w gas k 0 false (iqpr_txpacket h p s))
    as [ack s2|s2]; [|discriminate].
  simpl in Hp. cbn [bind] in E. destruct ack.
  - injection E as <- <- <-. split; [simpl; lia|]. intros _.
    destruct (Hs s2 eq_refl) as [?|(i & Hi & Hacc)]; [discriminate|].
    exists i. simpl in Hi |- *. split; [lia|exact Hacc].
  - destruct (wrap32 (a + 1) <? max_num_attempts c).
    + destruct (IH _ _ _ _ _ E) as (Hp' & Hacc). split; [lia|].
      intros Hb. destruct (Hacc Hb) as (i & Hi & Hi').
      exists i. split; [lia|exact Hi'].
    + injection E as <- <- <-. split; [lia|discriminate].
Qed.

Hypothesis limit_fits : max_num_attempts c < 2 ^ 32.
Hypothesis count_fits : num_packets c < 2 ^ 32.

Lemma master_loop_completed : forall n k s s',
  0 <= k -> 1 <= max_num_attempts c ->
  0 <= num_bytes_received s < 2 ^ 64 ->
  master_loop c w gas n k s = Ret Completed s' ->
  (polls s <= polls s')%nat /\
  num_bytes_received s' =
  wrap64 (num_bytes_received s +
          Z.max 0 (num_packets c - k) * tx_payload_len c) /\
  forall j, k <= j < num_packets c ->
            exists i, (polls s <= i < polls s')%nat /\ accepts w j i = true.
Proof.
  induction n as [|n IH]; intros k s s' Hk Hmax Hb E.
  - simpl in E. destruct (Z.ltb_spec k (num_packets c)); [discriminate|].
    injection E as <-. split; [lia|]. split; [|lia].
    rewrite Z.max_l by lia. unfold wrap64. rewrite Z.mod_small; lia.
  - rewrite master_loop_eq in E.
    destruct (Z.ltb_spec k (num_packets c)) as [Hlt|Hge].
    + destruct (attempts c w gas gas k (packet_header w k s)
                         (packet_payload c w s) 0 (packet_state c w s))
        as [[b a'] s3|s3] eqn:Ea; [|discriminate].
      cbn [bind snd] in E.
      destruct (Z.eqb_spec a' (max_num_attempts c)) as [|Hne];
        [discriminate|].
      destruct (attempts_shape c w gas k (packet_header w k s)
                  (packet_payload c w s) limit_fits gas 0
                  (packet_state c w s) ltac:(lia)) as (m & _ & _ & Hret).
      destruct (Hret b a' s3 Ea) as (Hm & Ha' & Hfalse & _ & Hbytes).
      destruct (attempts_acked _ _ _ _ _ _ _ _ _ Ea) as (Hp3 & Hacc).
      simpl in Hp3, Hacc, Hbytes.
      assert (Hbt : b = true).
      { destruct b; [reflexivity|].
        apply attempts_result in Ea; [|lia|exact limit_fits].
        destruct Ea as [((_ & _) & Hf & _)|(_ & Hr)];
          [discriminate|contradiction]. }
      subst b. rewrite wrap32_small in E by lia.
      assert (Hb3 : 0 <= num_bytes_received s3 < 2 ^ 64)
        by (rewrite Hbytes; apply Z.mod_pos_bound; lia).
      destruct (IH (k + 1) s3 s' ltac:(lia) Hmax Hb3 E) as (Hp' & Hb' & Hall).
      split; [lia|]. split.
      * rewrite Hb', Hbytes, wrap64_add_l. f_equal.
        rewrite !Z.max_r by lia. ring.
      * intros j Hj. destruct (Z.eq_dec j k) as [->|Hjk].
        -- destruct (Hacc eq_refl) as (i & Hi & Hi').
           exists i. split; [lia|exact Hi'].
        -- destruct (Hall j ltac:(lia)) as (i & Hi & Hi').
           exists i. split; [lia|exact Hi'].
    + injection E as <-. split; [lia|]. split; [|lia].
      rewrite Z.max_l by lia. unfold wrap64. rewrite Z.mod_small; lia.
Qed.

Lemma master_loop_bailed : forall n k s s',
  0 <= k ->
  master_loop c w gas n k s = Ret Bailed s' ->
  1 <= max_num_attempts c /\
  exists bs p fill,
    sent s' = sent s ++ bursts bs ++ repeat p (Z.to_nat (max_num_attempts c)) /\
    in_order c k bs /\
    tx_header p = data_header (k + Z.of_nat (length bs)) fill /\
    k + Z.of_nat (length bs) < num_packets c.
Proof.
  induction n as [|n IH]; intros k s s' Hk E.
  - simpl in E. destruct (k <? num_packets c); discriminate.
  - rewrite master_loop_eq in E.
    destruct (Z.ltb_spec k (num_packets c)) as [Hlt|Hge]; [|discriminate].
    destruct (attempts_shape c w gas k (packet_header w k s)
                (packet_payload c w s) limit_fits gas 0 (packet_state c w s)
                ltac:(lia)) as (m & Hm & Hle & Hret).
    rewrite Z.sub_0_r in Hle. simpl sent at 2 in Hm.
    destruct (attempts c w gas gas k (packet_header w k s)
                       (packet_payload c w s) 0 (packet_state c w s))
      as [[b a'] s3|s3]; [|discriminate].
    destruct (Hret b a' s3 eq_refl) as (Hm1 & Ha' & _).
    cbn [bind snd final] in E, Hm.
    destruct (Z.eqb_spec a' (max_num_attempts c)) as [Heq|Hne].
    + injection E as <-. split; [lia|].
      exists [], (mkPacket (packet_header w k s) (packet_payload c w s)),
             (fst (rand_bytes w 5 s)).
      split; [rewrite Hm; simpl; f_equal; f_equal; lia|].
      split; [exact I|]. simpl. rewrite Z.add_0_r. split; [reflexivity|lia].
    + rewrite wrap32_small in E by lia.
      destruct (IH (k + 1) s3 s' ltac:(lia) E)
        as (Hmax & bs & p & fill & Hs' & Hord & Hh & Hlt').
      split; [exact Hmax|].
      exists ((mkPacket (packet_header w k s) (packet_payload c w s), m) :: bs),
             p, fill.
      split.
      { rewrite Hs', Hm. unfold bursts. simpl. unfold burst at 1. simpl.
        now rewrite <- !app_assoc. }
      split; [apply packet_in_order; [lia|exact Hord]|].
      simpl length. rewrite Nat2Z.inj_succ.
      replace (k + Z.succ (Z.of_nat (length bs)))
        with (k + 1 + Z.of_nat (length bs)) by lia.
      split; assumption.
Qed.

End MasterOutcome.

(** X3: when at least one attempt is allowed, the master leaves its packet
    loop at the end only if every packet was acknowledged: for each id
    below [num_packets] a frame accepted for that id was polled during the
    run, the byte count is [num_packets] payload lengths (modulo 2^64), and
    [num_packets] is at most 2^16. *)
Theorem master_completed_all_acked (c : config) (w : world) (gas : nat)
        (s : state) :
  1 <= max_num_attempts c < 2 ^ 32 -> 0 <= num_packets c < 2 ^ 32 ->
  master c w gas = Ret Completed s ->
  num_bytes_received s = wrap64 (num_packets c * tx_payload_len c) /\
  (forall j, 0 <= j < num_packets c ->
             exists i, (i < polls s)%nat /\ accepts w j i = true) /\
  num_packets c <= 65536.
Proof.
  intros Hmax Hn E. unfold master in E.
  destruct (master_loop_completed c w gas ltac:(lia) ltac:(lia) gas 0
              init_state s ltac:(lia) ltac:(lia) ltac:(simpl; lia) E)
    as (_ & Hb & Hall).
  simpl in Hb. rewrite Z.sub_0_r, Z.max_r in Hb by lia.
  split; [exact Hb|].
  assert (Hall' : forall j, 0 <= j < num_packets c ->
                            exists i, (i < polls s)%nat /\ accepts w j i = true).
  { intros j Hj. destruct (Hall j Hj) as (i & Hi & Hacc).
    exists i. split; [lia|exact Hacc]. }
  split; [exact Hall'|].
  destruct (Z_le_gt_dec (num_packets c) 65536) as [|Hgt]; [assumption|].
  exfalso. destruct (Hall' 65536 ltac:(lia)) as (i & _ & Hacc).
  unfold accepts in Hacc. destruct (rx w i) as [f|]; [|discriminate].
  destruct (master_check f 65536) eqn:Ec; try discriminate.
  apply (master_check_large_id f 65536); [lia|exact Ec].
Qed.

Lemma master_completed_all_acked_witness :
  (1 <= max_num_attempts three_packets < 2 ^ 32 /\
   0 <= num_packets three_packets < 2 ^ 32) /\
  exists s,
    master three_packets echo_world 240 = Ret Completed s /\
    num_bytes_received s = wrap64 (3 * 200).
Proof.
  assert (H1 : 1 <= max_num_attempts three_packets < 2 ^ 32)
    by (split; vm_compute; [discriminate|reflexivity]).
  assert (H2 : 0 <= num_packets three_packets < 2 ^ 32)
    by (split; vm_compute; [discriminate|reflexivity]).
  split; [split; assumption|].
  assert (H3 : exists s, master three_packets echo_world 240 = Ret Completed s)
    by (eexists; vm_compute; reflexivity).
  destruct H3 as (s & E).
  destruct (master_completed_all_acked three_packets echo_world 240 s H1 H2 E)
    as (Hb & _).
  exists s. split; [exact E|exact Hb].
Defined.

(** X4: the master bails only after transmitting one packet exactly
    [max_num_attempts] times in a row, these being the last transmissions of
    the run; before them come the bursts of all earlier ids, in order and
    each with at least one transmission.  With an attempt limit of 0 it
    never bails. *)
Theorem master_bails_after_limit (c : config) (w : world) (gas : nat)
        (s : state) :
  max_num_attempts c < 2 ^ 32 -> num_packets c < 2 ^ 32 ->
  master c w gas = Ret Bailed s ->
  1 <= max_num_attempts c /\
  exists bs p fill,
    sent s = bursts bs ++ repeat p (Z.to_nat (max_num_attempts c)) /\
    in_order c 0 bs /\
    tx_header p = data_header (Z.of_nat (length bs)) fill /\
    Z.of_nat (length bs) < num_packets c.
Proof.
  intros Hmax Hn E. unfold master in E.
  destruct (master_loop_bailed c w gas Hmax Hn gas 0 init_state s
              ltac:(lia) E) as (H1 & bs & p & fill & Hs & Hord & Hh & Hlt).
  split; [exact H1|]. exists bs, p, fill.
  split; [exact Hs|]. split; [exact Hord|]. split; assumption.
Qed.

Lemma master_bails_after_limit_witness :
  (max_num_attempts one_attempt_config < 2 ^ 32 /\
   num_packets one_attempt_config < 2 ^ 32) /\
  exists s p,
    master one_attempt_config silent_world 240 = Ret Bailed s /\
    sent s = repeat p 1.
Proof.
  assert (H1 : max_num_attempts one_attempt_config < 2 ^ 32)
    by (vm_compute; reflexivity).
  assert (H2 : num_packets one_attempt_config < 2 ^ 32)
    by (vm_compute; reflexivity).
  split; [split; assumption|].
  assert (H3 : exists s,
             master one_attempt_config silent_world 240 = Ret Bailed s)
    by (eexists; vm_compute; reflexivity).
  destruct H3 as (s & E).
  destruct (master_bails_after_limit one_attempt_config silent_world 240 s
              H1 H2 E) as (_ & bs & p & fill & Hs & _ & _ & Hlt).
  exists s. destruct bs as [|b bs].
  - exists p. split; [exact E|exact Hs].
  - exists p. split; [exact E|].
    assert (Hlen : length (sent s) = 1%nat).
    { clear Hs. vm_compute in E. injection E as <-. reflexivity. }
    rewrite Hs in Hlen |- *.
    rewrite length_app, repeat_length in Hlen.
    change (Z.to_nat (max_num_attempts one_attempt_config)) with 1%nat in *.
    destruct (bursts (b :: bs)); [reflexivity|simpl in Hlen; lia].
Defined.

Lemma window_pos (c : config) :
  0 < timespec c -> 0 < ack_timeout c -> (0 < window c)%nat.
Proof.
  intros HT HA. destruct (window_spec c HT) as (Hw & _).
  destruct (window c); [simpl in Hw; lia|lia].
Qed.

Lemma accepts_id_small (w : world) (k : Z) (i : nat) :
  accepts w k i = true -> 0 <= k < 65536.
Proof.
  unfold accepts. destruct (rx w i) as [f|]; [|discriminate].
  destruct (master_check f k) eqn:E; try discriminate. intros _.
  apply master_check_accepted in E. destruct E as (_ & _ & _ & <-).
  apply decode_pid_range.
Qed.

Lemma master_loop_prompt (c : config) (w : world) (gas : nat) :
  max_num_attempts c <> 1 -> num_packets c < 2 ^ 32 ->
  0 < timespec c -> 0 < ack_timeout c ->
  ack_timeout c + timespec c <= 2 ^ 32 ->
  (forall i, Z.of_nat i < num_packets c -> accepts w (Z.of_nat i) i = true) ->
  (window c <= gas)%nat -> (1 <= gas)%nat ->
  forall d n i s,
    Z.of_nat (i + d) = num_packets c -> (d <= n)%nat -> polls s = i ->
    0 <= num_bytes_received s < 2 ^ 64 ->
    exists s' l,
      master_loop c w gas n (Z.of_nat i) s = Ret Completed s' /\
      polls s' = (i + d)%nat /\
      num_bytes_received s' =
      wrap64 (num_bytes_received s + Z.of_nat d * tx_payload_len c) /\
      sent s' = sent s ++ l /\
      map packet_id l = map Z.of_nat (seq i d).
Proof.
  intros Hmax Hn HT HA Hfit Hecho Hgw Hg1.
  induction d as [|d IH]; intros n i s HN Hd Hp Hb.
  - exists s, []. split; [apply master_loop_done; lia|].
    split; [lia|]. split.
    + rewrite Z.mul_0_l, Z.add_0_r. unfold wrap64. now rewrite Z.mod_small.
    + split; [now rewrite app_nil_r|reflexivity].
  - destruct n as [|n]; [lia|]. destruct gas as [|g] eqn:Eg; [lia|].
    rewrite <- Eg in *. rewrite master_loop_eq.
    assert (Hlt : Z.of_nat i < num_packets c) by lia.
    assert (E0 : (Z.of_nat i <? num_packets c) = true) by now apply Z.ltb_lt.
    rewrite E0. pose proof (Hecho i Hlt) as Hacc.
    set (h := packet_header w (Z.of_nat i) s).
    set (p := packet_payload c w s).
    destruct (await_ack_first c w (Z.of_nat i) HT ltac:(lia) Hfit gas
                (iqpr_txpacket h p (packet_state c w s)) 0 Hgw
                (window_pos c HT HA)) as (s1 & E1 & Hp1 & Hq1).
    { intros j Hj. lia. }
    { simpl. rewrite Hp, Nat.add_0_r. exact Hacc. }
    assert (Ea : attempts c w gas gas (Z.of_nat i) h p 0 (packet_state c w s) =
                 Ret (true, 1) (add_bytes (tx_payload_len c) s1)).
    { rewrite Eg at 2. rewrite attempts_eq, E1. reflexivity. }
    rewrite Ea. cbn [bind snd].
    destruct (Z.eqb_spec 1 (max_num_attempts c)) as [Heq|_];
      [now elim Hmax|].
    rewrite wrap32_small by lia.
    replace (Z.of_nat i + 1) with (Z.of_nat (S i)) by lia.
    destruct Hq1 as (_ & Hs1 & Hb1). simpl in Hp1, Hs1, Hb1.
    destruct (IH n (S i) (add_bytes (tx_payload_len c) s1))
      as (s' & l & E' & Hp' & Hb' & Hs' & Hl).
    + lia.
    + lia.
    + simpl. lia.
    + simpl. apply Z.mod_pos_bound. lia.
    + exists s', (mkPacket h p :: l).
      split; [exact E'|]. split; [lia|]. split.
      * rewrite Hb'. cbn [num_bytes_received add_bytes].
        rewrite Hb1, wrap64_add_l. f_equal.
        rewrite Nat2Z.inj_succ. ring.
      * split.
        -- rewrite Hs'. simpl. rewrite Hs1, <- app_assoc. reflexivity.
        -- simpl. f_equal; [|exact Hl].
           unfold packet_id, h, packet_header. simpl tx_header.
           rewrite decode_data_header. apply Z.mod_small.
           apply (accepts_id_small w _ i Hacc).
Qed.

(** X5: when every packet is acknowledged at the first poll after its
    first transmission, and the attempt limit is not 1, the master leaves
    its packet loop at the end, having transmitted the ids 0, 1, ...,
    [num_packets - 1] once each in this order, made one poll per packet and
    counted [num_packets] payload lengths. *)
Theorem master_all_acked_promptly (c : config) (w : world) (gas : nat) :
  max_num_attempts c <> 1 ->
  0 <= num_packets c < 2 ^ 32 -> 0 <= tx_payload_len c < 2 ^ 32 ->
  0 < timespec c -> 0 < ack_timeout c ->
  ack_timeout c + timespec c <= 2 ^ 32 ->
  (forall i, Z.of_nat i < num_packets c -> accepts w (Z.of_nat i) i = true) ->
  (window c <= gas)%nat -> (1 <= gas)%nat -> num_packets c <= Z.of_nat gas ->
  exists s,
    master c w gas = Ret Completed s /\
    polls s = Z.to_nat (num_packets c) /\
    map packet_id (sent s) = map Z.of_nat (seq 0 (Z.to_nat (num_packets c))) /\
    num_bytes_received s = num_packets c * tx_payload_len c.
Proof.
  intros Hmax Hn Hlen HT HA Hfit Hecho Hgw Hg1 Hgn.
  destruct (master_loop_prompt c w gas Hmax ltac:(lia) HT HA Hfit Hecho Hgw Hg1
              (Z.to_nat (num_packets c)) gas 0%nat init_state)
    as (s & l & E & Hp & Hb & Hs & Hl); try (simpl; lia).
  exists s. unfold master. split; [exact E|]. split; [exact Hp|].
  split; [rewrite Hs; exact Hl|].
  rewrite Hb. simpl num_bytes_received. rewrite Z.add_0_l, Z2Nat.id by lia.
  unfold wrap64. apply Z.mod_small.
  assert (Hsmall : num_packets c <= 65536).
  { destruct (Z_le_gt_dec (num_packets c) 65536) as [|Hgt]; [assumption|].
    pose proof (accepts_id_small w _ _
                  (Hecho (Z.to_nat 65536) ltac:(lia))). lia. }
  nia.
Qed.

Lemma master_all_acked_promptly_witness :
  (max_num_attempts three_packets <> 1 /\
   0 <= num_packets three_packets < 2 ^ 32 /\
   0 <= tx_payload_len three_packets < 2 ^ 32 /\
   0 < timespec three_packets /\ 0 < ack_timeout three_packets /\
   ack_timeout three_packets + timespec three_packets <= 2 ^ 32 /\
   (forall i, Z.of_nat i < num_packets three_packets ->
              accepts echo_world (Z.of_nat i) i = true) /\
   (window three_packets <= 240)%nat /\ (1 <= 240)%nat /\
   num_packets three_packets <= Z.of_nat 240) /\
  exists s,
    master three_packets echo_world 240 = Ret Completed s /\
    polls s = 3%nat /\ num_bytes_received s = 600.
Proof.
  assert (H1 : max_num_attempts three_packets <> 1)
    by (vm_compute; discriminate).
  assert (H2 : 0 <= num_packets three_packets < 2 ^ 32)
    by (split; vm_compute; [discriminate|reflexivity]).
  assert (H3 : 0 <= tx_payload_len three_packets < 2 ^ 32)
    by (split; vm_compute; [discriminate|reflexivity]).
  assert (H4 : 0 < timespec three_packets) by (vm_compute; reflexivity).
  assert (H5 : 0 < ack_timeout three_packets) by (vm_compute; reflexivity).
  assert (H6 : ack_timeout three_packets + timespec three_packets <= 2 ^ 32)
    by (vm_compute; discriminate).
  assert (H7 : forall i, Z.of_nat i < num_packets three_packets ->
                         accepts echo_world (Z.of_nat i) i = true).
  { intros i Hi. change (num_packets three_packets) with 3 in Hi.
    destruct i as [|[|[|i]]]; [reflexivity|reflexivity|reflexivity|lia]. }
  assert (H8 : (window three_packets <= 240)%nat) by (vm_compute; apply le_n).
  assert (H9 : (1 <= 240)%nat) by lia.
  assert (H10 : num_packets three_packets <= Z.of_nat 240)
    by (vm_compute; discriminate).
  split; [repeat split; try assumption; try apply H2; apply H3|].
  destruct (master_all_acked_promptly three_packets echo_world 240
              H1 H2 H3 H4 H5 H6 H7 H8 H9 H10) as (s & E & Hp & _ & Hb).
  exists s. split; [exact E|]. split; [exact Hp|exact Hb].
Defined.

(** * Further properties of the slave *)

Lemma polled_frames_step (w : world) (lo n : nat) :
  polled_frames w lo (S n) =
  match rx w lo with Some f => [f] | None => [] end
  ++ polled_frames w (S lo) n.
Proof. reflexivity. Qed.

Lemma slave_ack_wellformed (w : world) (s : state) (f : frame) :
  packet_id (slave_ack w s f) = decode_pid (rx_header f) /\
  hdr (tx_header (slave_ack w s f)) 2 = PING_PACKET_ACK /\
  length (tx_header (slave_ack w s f)) = 8%nat /\
  length (tx_payload (slave_ack w s f)) = 10%nat.
Proof. repeat split. Qed.

Section SlaveTrace.

Variable c : config.
Variable w : world.

(** One found frame: what it adds to the trace and to the byte count. *)
Lemma slave_frame_trace (f : frame) (s : state) :
  0 <= num_bytes_received s < 2 ^ 64 ->
  exists l,
    sent (slave_frame w f s) = sent s ++ l /\
    map packet_id l =
    map (fun g => decode_pid (rx_header g)) (filter good_data [f]) /\
    Forall (fun p => hdr (tx_header p) 2 = PING_PACKET_ACK /\
                     length (tx_header p) = 8%nat /\
                     length (tx_payload p) = 10%nat) l /\
    0 <= num_bytes_received (slave_frame w f s) < 2 ^ 64 /\
    forall rest,
      wrap64 (num_bytes_received (slave_frame w f s) + rest) =
      wrap64 (num_bytes_received s
              + (total_payload (filter good_data [f]) + rest)).
Proof.
  intros Hb. rewrite slave_frame_sent, slave_frame_bytes. simpl filter.
  destruct (good_data f).
  - exists [slave_ack w s f]. split; [reflexivity|]. split; [reflexivity|].
    split; [constructor; [repeat split|constructor]|].
    split; [apply Z.mod_pos_bound; lia|].
    intros rest. rewrite wrap64_add_l. unfold total_payload. simpl.
    f_equal. ring.
  - exists []. split; [now rewrite app_nil_r|]. split; [reflexivity|].
    split; [constructor|]. split; [exact Hb|].
    intros rest. reflexivity.
Qed.

Lemma slave_loop_trace : forall n s,
  0 <= num_bytes_received s < 2 ^ 64 ->
  exists l,
    sent (final (slave_loop c w n s)) = sent s ++ l /\
    map packet_id l =
    map (fun g => decode_pid (rx_header g))
        (filter good_data
           (polled_frames w (polls s)
              (polls (final (slave_loop c w n s)) - polls s))) /\
    Forall (fun p => hdr (tx_header p) 2 = PING_PACKET_ACK /\
                     length (tx_header p) = 8%nat /\
                     length (tx_payload p) = 10%nat) l /\
    num_bytes_received (final (slave_loop c w n s)) =
    wrap64 (num_bytes_received s +
            total_payload
              (filter good_data
                 (polled_frames w (polls s)
                    (polls (final (slave_loop c w n s)) - polls s)))).
Proof.
  induction n as [|n IH]; intros s Hb.
  - exists []. simpl. rewrite Nat.sub_diag, app_nil_r. simpl.
    split; [reflexivity|]. split; [reflexivity|]. split; [constructor|].
    unfold total_payload. simpl. rewrite Z.add_0_r.
    unfold wrap64. now rewrite Z.mod_small.
  - pose proof (slave_loop_sent c w (S n) s) as (Hmono & _).
    simpl in Hmono |- *. destruct (rx w (polls s)) as [f|] eqn:Erx.
    + set (s1 := mkState (S (polls s)) (rands s) (sent s)
                         (num_bytes_received s) (rx_pid s)) in *.
      destruct (slave_frame_trace f s1 Hb) as (l0 & Hl0 & Hid0 & HF0 & Hb2 & Hsum).
      pose proof (slave_frame_polls w f s1) as Hp2. simpl in Hp2, Hl0.
      destruct (negb (rx_pid (slave_frame w f s1) =? wrap32 (num_packets c - 1))).
      * destruct (IH (slave_frame w f s1) Hb2) as (l & Hl & Hid & HF & Hbytes).
        pose proof (slave_loop_sent c w n (slave_frame w f s1)) as (Hmono' & _).
        rewrite Hp2 in Hid, Hbytes, Hmono'.
        set (hi := polls (final (slave_loop c w n (slave_frame w f s1)))) in *.
        replace (hi - polls s)%nat with (S (hi - S (polls s))) by lia.
        rewrite polled_frames_step, Erx, filter_app.
        exists (l0 ++ l).
        split; [rewrite Hl, Hl0, app_assoc; reflexivity|].
        split; [rewrite !map_app, Hid0, Hid; reflexivity|].
        split; [apply Forall_app; split; assumption|].
        rewrite Hbytes, Hsum. f_equal. f_equal.
        unfold total_payload. rewrite !map_app, fold_right_app.
        generalize (map rx_payload_len
                      (filter good_data
                         (polled_frames w (S (polls s)) (hi - S (polls s))))).
        intros l1. induction (map rx_payload_len (filter good_data [f]))
          as [|x xs IHx]; simpl; [reflexivity|]. rewrite <- IHx. ring.
      * cbn [final]. rewrite Hp2.
        replace (S (polls s) - polls s)%nat with 1%nat by lia.
        rewrite polled_frames_step, Erx. simpl polled_frames.
        rewrite app_nil_r.
        exists l0. split; [exact Hl0|]. split; [exact Hid0|].
        split; [exact HF0|].
        specialize (Hsum 0). rewrite !Z.add_0_r in Hsum.
        transitivity (wrap64 (num_bytes_received (slave_frame w f s1)));
          [unfold wrap64; now rewrite Z.mod_small|exact Hsum].
    + set (s1 := mkState (S (polls s)) (rands s) (sent s)
                         (num_bytes_received s) (rx_pid s)) in *.
      destruct (IH s1 Hb) as (l & Hl & Hid & HF & Hbytes).
      pose proof (slave_loop_sent c w n s1) as (Hmono' & _).
      simpl in Hmono'. simpl polls in Hid, Hbytes at 1.
      set (hi := polls (final (slave_loop c w n s1))) in *.
      replace (hi - polls s)%nat with (S (hi - S (polls s))) by lia.
      rewrite polled_frames_step, Erx. simpl app.
      exists l. split; [exact Hl|]. split; [exact Hid|].
      split; [exact HF|exact Hbytes].
Qed.

End SlaveTrace.

Lemma slave_acks_every_good_frame_aux (c : config) (w : world) (gas : nat) :
  map packet_id (sent (final (slave c w gas))) =
  map (fun f => decode_pid (rx_header f))
      (filter good_data
         (polled_frames w 0 (polls (final (slave c w gas))))) /\
  num_bytes_received (final (slave c w gas)) =
  wrap64 (total_payload
            (filter good_data
               (polled_frames w 0 (polls (final (slave c w gas)))))).
Proof.
  unfold slave.
  destruct (slave_loop_trace c w gas init_state ltac:(simpl; lia))
    as (l & Hl & Hid & HF & Hb).
  simpl in Hl, Hid, Hb. rewrite Nat.sub_0_r in Hid, Hb.
  rewrite Hl. split; [exact Hid|exact Hb].
Qed.

(** X6: the slave answers every frame it finds that has a valid header,
    type DATA and a valid payload, once and in the order found, a
    retransmitted packet included: the ids of the packets transmitted are
    the ids of these frames, each packet is an ACK with an 8-byte header and
    a 10-byte payload, and the byte count is the sum of these frames'
    payload lengths (modulo 2^64). *)
Theorem slave_acks_every_good_frame (c : config) (w : world) (gas : nat) :
  map packet_id (sent (final (slave c w gas))) =
  map (fun f => decode_pid (rx_header f))
      (filter good_data
         (polled_frames w 0 (polls (final (slave c w gas))))) /\
  Forall (fun p => hdr (tx_header p) 2 = PING_PACKET_ACK /\
                   length (tx_header p) = 8%nat /\
                   length (tx_payload p) = 10%nat)
         (sent (final (slave c w gas))) /\
  num_bytes_received (final (slave c w gas)) =
  wrap64 (total_payload
            (filter good_data
               (polled_frames w 0 (polls (final (slave c w gas)))))).
Proof.
  unfold slave.
  destruct (slave_loop_trace c w gas init_state ltac:(simpl; lia))
    as (l & Hl & Hid & HF & Hb).
  simpl in Hl, Hid, Hb. rewrite Nat.sub_0_r in Hid, Hb.
  rewrite Hl. split; [exact Hid|]. split; [exact HF|exact Hb].
Qed.

Section SlaveEnd.

Variable c : config.
Variable w : world.

Lemma slave_loop_end : forall n s s',
  0 <= rx_pid s < 65536 ->
  slave_loop c w n s = Ret tt s' ->
  rx_pid s' = wrap32 (num_packets c - 1) /\
  0 <= rx_pid s' < 65536 /\
  (polls s < polls s')%nat /\
  exists f, rx w (pred (polls s')) = Some f.
Proof.
  induction n as [|n IH]; intros s s' Hs E; [discriminate|].
  simpl in E. destruct (rx w (polls s)) as [f|] eqn:Erx.
  - set (s1 := mkState (S (polls s)) (rands s) (sent s)
                       (num_bytes_received s) (rx_pid s)) in *.
    assert (H1 : 0 <= rx_pid (slave_frame w f s1) < 65536)
      by (apply slave_frame_rx_pid; exact Hs).
    pose proof (slave_frame_polls w f s1) as Hp. simpl in Hp.
    destruct (Z.eqb_spec (rx_pid (slave_frame w f s1))
                         (wrap32 (num_packets c - 1))) as [Heq|Hne];
      simpl in E.
    + injection E as <-. split; [exact Heq|]. split; [exact H1|].
      rewrite Hp. split; [lia|]. exists f. exact Erx.
    + pose proof (fun H => IH _ s' H E) as IH'.
      destruct (IH' H1) as (Hr & Hrange & Hlt & Hf).
      split; [exact Hr|]. split; [exact Hrange|]. split; [lia|exact Hf].
  - pose proof (fun H => IH _ s' H E) as IH'.
    destruct (IH' Hs) as (Hr & Hrange & Hlt & Hf).
    split; [exact Hr|]. split; [exact Hrange|].
    simpl in Hlt. split; [lia|exact Hf].
Qed.

Lemma slave_frame_rx_pid_data (f : frame) (s : state) :
  rx_header_valid f = true -> hdr (rx_header f) 2 = PING_PACKET_DATA ->
  rx_pid (slave_frame w f s) = decode_pid (rx_header f).
Proof.
  intros Hv Ht. unfold slave_frame. rewrite Hv, Ht. simpl.
  destruct (rx_payload_valid f); reflexivity.
Qed.

Lemma slave_loop_stops (i : nat) (f : frame) :
  1 <= num_packets c ->
  rx w i = Some f ->
  rx_header_valid f = true -> hdr (rx_header f) 2 = PING_PACKET_DATA ->
  decode_pid (rx_header f) = num_packets c - 1 ->
  forall n s,
    (polls s <= i < polls s + n)%nat ->
    exists s', slave_loop c w n s = Ret tt s' /\ (polls s' <= S i)%nat.
Proof.
  intros HN Hrx Hv Ht Hid.
  assert (Hw : wrap32 (num_packets c - 1) = num_packets c - 1).
  { pose proof (decode_pid_range (rx_header f)).
    apply wrap32_small. lia. }
  induction n as [|n IH]; intros s Hi; [lia|].
  simpl. destruct (Nat.eq_dec (polls s) i) as [Heq|Hne].
  - rewrite Heq, Hrx.
    rewrite slave_frame_rx_pid_data, Hid, Hw, Z.eqb_refl by assumption.
    simpl. eexists. split; [reflexivity|].
    rewrite slave_frame_polls. simpl. lia.
  - destruct (rx w (polls s)) as [g|].
    + set (s1 := mkState (S (polls s)) (rands s) (sent s)
                         (num_bytes_received s) (rx_pid s)).
      pose proof (slave_frame_polls w g s1) as Hp. simpl in Hp.
      destruct (negb (rx_pid (slave_frame w g s1)
                      =? wrap32 (num_packets c - 1))).
      * apply IH. lia.
      * eexists. split; [reflexivity|]. lia.
    + apply IH. simpl. lia.
Qed.

End SlaveEnd.

(** X7: the slave's loop can end only when [num_packets] lies between 1
    and 2^16; started with [num_packets = 0] it polls for ever.  When the
    loop ends, the poll just made has found a frame and [rx_pid] equals
    [num_packets - 1]. *)
Theorem slave_end_condition (c : config) (w : world) (gas : nat)
        (s : state) :
  0 <= num_packets c < 2 ^ 32 ->
  slave c w gas = Ret tt s ->
  1 <= num_packets c <= 65536 /\
  rx_pid s = num_packets c - 1 /\
  (1 <= polls s)%nat /\
  exists f, rx w (pred (polls s)) = Some f.
Proof.
  intros HN E. unfold slave in E.
  destruct (slave_loop_end c w gas init_state s ltac:(simpl; lia) E)
    as (Hr & Hrange & Hlt & Hf).
  assert (H1 : 1 <= num_packets c <= 65536).
  { rewrite Hr in Hrange. unfold wrap32 in Hrange.
    destruct (Z.eq_dec (num_packets c) 0) as [E0|].
    - rewrite E0 in Hrange. vm_compute in Hrange.
      destruct Hrange as (_ & Habs). discriminate.
    - rewrite Z.mod_small in Hrange; lia. }
  split; [exact H1|]. split.
  - rewrite Hr. apply wrap32_small. lia.
  - simpl in Hlt. split; [lia|exact Hf].
Qed.

Lemma slave_end_condition_witness :
  0 <= num_packets one_packet < 2 ^ 32 /\
  exists s,
    slave one_packet bad_header_world 10 = Ret tt s /\
    rx_pid s = num_packets one_packet - 1.
Proof.
  assert (H1 : 0 <= num_packets one_packet < 2 ^ 32)
    by (split; vm_compute; [discriminate|reflexivity]).
  split; [exact H1|].
  assert (H2 : exists s, slave one_packet bad_header_world 10 = Ret tt s)
    by (eexists; vm_compute; reflexivity).
  destruct H2 as (s & E).
  destruct (slave_end_condition one_packet bad_header_world 10 s H1 E)
    as (_ & Hr & _).
  exists s. split; [exact E|exact Hr].
Defined.

(** X8: once a poll finds a frame with a valid header, type DATA and id
    [num_packets - 1], the slave's loop ends with that poll at the latest,
    whether or not the payload is valid. *)
Theorem slave_stops_at_last_id (c : config) (w : world) (gas i : nat)
        (f : frame) :
  1 <= num_packets c ->
  rx w i = Some f ->
  rx_header_valid f = true -> hdr (rx_header f) 2 = PING_PACKET_DATA ->
  decode_pid (rx_header f) = num_packets c - 1 ->
  (i < gas)%nat ->
  exists s, slave c w gas = Ret tt s /\ (polls s <= S i)%nat.
Proof.
  intros HN Hrx Hv Ht Hid Hi. unfold slave.
  apply (slave_loop_stops c w i f HN Hrx Hv Ht Hid). simpl. lia.
Qed.

Lemma slave_stops_at_last_id_witness :
  (1 <= num_packets three_packets /\
   rx bad_payload_world 4 = Some bad_payload_frame /\
   rx_header_valid bad_payload_frame = true /\
   hdr (rx_header bad_payload_frame) 2 = PING_PACKET_DATA /\
   decode_pid (rx_header bad_payload_frame) = num_packets three_packets - 1 /\
   (4 < 10)%nat) /\
  exists s, slave three_packets bad_payload_world 10 = Ret tt s /\
            (polls s <= 5)%nat.
Proof.
  assert (H1 : 1 <= num_packets three_packets) by (vm_compute; discriminate).
  assert (H2 : rx bad_payload_world 4 = Some bad_payload_frame)
    by reflexivity.
  assert (H3 : rx_header_valid bad_payload_frame = true) by reflexivity.
  assert (H4 : hdr (rx_header bad_payload_frame) 2 = PING_PACKET_DATA)
    by reflexivity.
  assert (H5 : decode_pid (rx_header bad_payload_frame) =
               num_packets three_packets - 1) by reflexivity.
  assert (H6 : (4 < 10)%nat) by lia.
  split; [repeat split; assumption|].
  exact (slave_stops_at_last_id three_packets bad_payload_world 10 4
           bad_payload_frame H1 H2 H3 H4 H5 H6).
Defined.

(** * Further properties of the headers *)

(** X9: the id read back from the header of data packet [k] is [k] modulo
    2^16: it is [k] itself exactly for ids below 2^16, ids that differ by
    2^16 give the same two id bytes, and the acknowledgement built from
    the header carries the same id. *)
Theorem packet_id_round_trip (k : Z) (fill fill' : list byte) :
  decode_pid (data_header k fill) = k mod 65536 /\
  (decode_pid (data_header k fill) = k <-> 0 <= k < 65536) /\
  nth 0 (data_header (k + 65536) fill) x00 = nth 0 (data_header k fill) x00 /\
  nth 1 (data_header (k + 65536) fill) x00 = nth 1 (data_header k fill) x00 /\
  decode_pid (ack_header (data_header k fill) fill') = k mod 65536.
Proof.
  split; [apply decode_data_header|]. split.
  - rewrite decode_data_header. split; intros H.
    + rewrite <- H. apply Z.mod_pos_bound. lia.
    + now apply Z.mod_small.
  - assert (H0 : Z.land (Z.shiftr (k + 65536) 8) 255 =
                 Z.land (Z.shiftr k 8) 255).
    { change 255 with (Z.ones 8). rewrite !Z.land_ones by lia.
      rewrite !Z.shiftr_div_pow2 by lia.
      replace (k + 65536) with (k + 256 * 2 ^ 8) by lia.
      rewrite Z.div_add by lia.
      change 256 with (1 * 2 ^ 8). now rewrite Z.mod_add by lia. }
    assert (H1 : Z.land (k + 65536) 255 = Z.land k 255).
    { change 255 with (Z.ones 8). rewrite !Z.land_ones by lia.
      replace (k + 65536) with (k + 256 * 2 ^ 8) by lia.
      now rewrite Z.mod_add by lia. }
    unfold data_header. cbn [nth]. rewrite H0, H1.
    split; [reflexivity|]. split; [reflexivity|].
    rewrite decode_ack_header. apply decode_data_header.
Qed.



(** * Properties of the command line *)

Section CommandLineFacts.

Variables modulation_scheme fec_scheme : Type.
Variable atof : list byte -> float32.
Variable atoi : list byte -> Z.
Variable str2mod : list byte -> modulation_scheme.
Variable str2fec : list byte -> fec_scheme.

Let parse := getopt_loop modulation_scheme fec_scheme atof atoi
                        str2mod str2fec.

Lemma getopt_loop_exit : forall pre d a post o,
  Forall (fun x => sets (fst x) = true) pre ->
  (d = "u"%byte \/ d = "h"%byte ->
   parse (pre ++ (d, a) :: post) o = Usage) /\
  (sets d = false -> d <> "u"%byte -> d <> "h"%byte ->
   parse (pre ++ (d, a) :: post) o = Unsupported).
Proof.
  unfold parse.
  induction pre as [|[d0 a0] pre IH]; intros d a post o Hpre.
  - simpl. split.
    + intros [->| ->]; reflexivity.
    + intros Hs Hu Hh. destruct d; try reflexivity; try discriminate Hs;
        congruence.
  - inversion Hpre as [|x l Hd0 Hrest]; subst. simpl in Hd0.
    destruct d0; try discriminate Hd0; simpl; apply IH; exact Hrest.
Qed.

Lemma getopt_loop_last : forall opts o,
  Forall (fun x => sets (fst x) = true) opts ->
  exists o',
    parse opts o = Run o' /\
    num_packets (run _ _ o') =
    match last_opt (Byte.eqb "N") opts with
    | Some x => wrap32 (atoi (snd x))
    | None => num_packets (run _ _ o)
    end /\
    max_num_attempts (run _ _ o') =
    match last_opt (Byte.eqb "A") opts with
    | Some x => wrap32 (atoi (snd x))
    | None => max_num_attempts (run _ _ o)
    end /\
    tx_payload_len (run _ _ o') =
    match last_opt (Byte.eqb "n") opts with
    | Some x => wrap32 (atoi (snd x))
    | None => tx_payload_len (run _ _ o)
    end /\
    node_type _ _ o' =
    match last_opt (fun d => Byte.eqb "M" d || Byte.eqb "S" d) opts with
    | Some x => if Byte.eqb "M" (fst x) then PING_NODE_MASTER
                else PING_NODE_SLAVE
    | None => node_type _ _ o
    end /\
    ack_timeout (run _ _ o') = ack_timeout (run _ _ o) /\
    timespec (run _ _ o') = timespec (run _ _ o).
Proof.
  unfold parse.
  induction opts as [|[d a] opts IH]; intros o Hopts.
  - exists o. repeat split.
  - inversion Hopts as [|x l Hd Hrest]; subst. simpl in Hd.
    destruct d; try discriminate Hd; cbn [getopt_loop];
      match goal with
      | |- exists o', getopt_loop _ _ _ _ _ _ _ ?o1 = _ /\ _ =>
          destruct (IH o1 Hrest) as (o' & E & HN & HA & Hn & HM & Hat & Hts)
      end;
      exists o'; (split; [exact E|]);
      cbn [last_opt fst snd];
      rewrite HN, HA, Hn, HM, Hat, Hts;
      destruct (last_opt (Byte.eqb "N") opts);
      destruct (last_opt (Byte.eqb "A") opts);
      destruct (last_opt (Byte.eqb "n") opts);
      destruct (last_opt (fun d => Byte.eqb "M" d || Byte.eqb "S" d) opts);
      repeat split.
Qed.

End CommandLineFacts.

(** X11: the options are handled in the order given, up to the first one
    that ends the parsing: [-u] or [-h] prints the usage and makes [main]
    return 0, any character that is not the character of a handled option
    makes it exit with status 1, whatever follows; [-p], though listed in
    the option string passed to [getopt], is such a character. *)
Theorem options_stop_at_first_exit
        (modulation_scheme fec_scheme : Type)
        (atof : list byte -> float32) (atoi : list byte -> Z)
        (str2mod : list byte -> modulation_scheme)
        (str2fec : list byte -> fec_scheme)
        (pre post : list (byte * list byte)) (d : byte) (a : list byte)
        (o : options modulation_scheme fec_scheme) :
  Forall (fun x => sets (fst x) = true) pre ->
  (d = "u"%byte \/ d = "h"%byte ->
   getopt_loop _ _ atof atoi str2mod str2fec (pre ++ (d, a) :: post) o
   = Usage) /\
  (sets d = false -> d <> "u"%byte -> d <> "h"%byte ->
   getopt_loop _ _ atof atoi str2mod str2fec (pre ++ (d, a) :: post) o
   = Unsupported) /\
  getopt_loop _ _ atof atoi str2mod str2fec (pre ++ ("p"%byte, a) :: post) o
  = Unsupported.
Proof.
  intros Hpre.
  destruct (getopt_loop_exit _ _ atof atoi str2mod str2fec pre d a post o Hpre)
    as (H1 & H2).
  split; [exact H1|]. split; [exact H2|].
  apply (getopt_loop_exit _ _ atof atoi str2mod str2fec pre "p"%byte a post o
           Hpre); [reflexivity|discriminate|discriminate].
Qed.

Lemma options_stop_at_first_exit_witness :
  Forall (fun x => sets (fst x) = true) [("N", ["5"])]%byte /\
  getopt_loop _ _ (fun _ => S754_zero false) digits_value
              (fun a => a) (fun a => a) sample_help initial_options
  = Usage.
Proof.
  assert (H : Forall (fun x => sets (fst x) = true) [("N", ["5"])]%byte)
    by (constructor; [reflexivity|constructor]).
  split; [exact H|].
  apply (options_stop_at_first_exit _ _ (fun _ => S754_zero false)
           digits_value (fun a => a) (fun a => a)
           [("N", ["5"])]%byte [("?", [])]%byte "h"%byte [] initial_options H).
  right. reflexivity.
Defined.

(** X12: when no option ends the parsing, [main] runs with, for each of
    [-N], [-A] and [-n], the value of the last occurrence converted to
    unsigned int, or the initial value when the option does not occur; the
    node is master or slave according to the last of [-M] and [-S]; and no
    option changes [ack_timeout] or [timespec]. *)
Theorem options_last_wins
        (modulation_scheme fec_scheme : Type)
        (atof : list byte -> float32) (atoi : list byte -> Z)
        (str2mod : list byte -> modulation_scheme)
        (str2fec : list byte -> fec_scheme)
        (opts : list (byte * list byte))
        (o : options modulation_scheme fec_scheme) :
  Forall (fun x => sets (fst x) = true) opts ->
  exists o',
    getopt_loop _ _ atof atoi str2mod str2fec opts o = Run o' /\
    num_packets (run _ _ o') =
    match last_opt (Byte.eqb "N") opts with
    | Some x => wrap32 (atoi (snd x))
    | None => num_packets (run _ _ o)
    end /\
    max_num_attempts (run _ _ o') =
    match last_opt (Byte.eqb "A") opts with
    | Some x => wrap32 (atoi (snd x))
    | None => max_num_attempts (run _ _ o)
    end /\
    tx_payload_len (run _ _ o') =
    match last_opt (Byte.eqb "n") opts with
    | Some x => wrap32 (atoi (snd x))
    | None => tx_payload_len (run _ _ o)
    end /\
    node_type _ _ o' =
    match last_opt (fun d => Byte.eqb "M" d || Byte.eqb "S" d) opts with
    | Some x => if Byte.eqb "M" (fst x) then PING_NODE_MASTER
                else PING_NODE_SLAVE
    | None => node_type _ _ o
    end /\
    ack_timeout (run _ _ o') = ack_timeout (run _ _ o) /\
    timespec (run _ _ o') = timespec (run _ _ o).
Proof.
  apply getopt_loop_last.
Qed.

Lemma options_last_wins_witness :
  Forall (fun x => sets (fst x) = true) sample_options /\
  exists o',
    getopt_loop _ _ (fun _ => S754_zero false) digits_value
                (fun a => a) (fun a => a) sample_options initial_options
    = Run o' /\
    num_packets (run _ _ o') = 7 /\
    max_num_attempts (run _ _ o') = 500 /\
    node_type _ _ o' = PING_NODE_SLAVE.
Proof.
  assert (H : Forall (fun x => sets (fst x) = true) sample_options)
    by (repeat constructor).
  split; [exact H|].
  destruct (options_last_wins _ _ (fun _ => S754_zero false) digits_value
              (fun a => a) (fun a => a) sample_options initial_options H)
    as (o' & E & HN & HA & _ & HM & _).
  exists o'. split; [exact E|]. split; [exact HN|].
  split; [exact HA|exact HM].
Defined.

(** * Runs without and with acknowledgements *)

Lemma attempts_unanswered (c : config) (w : world) (gas : nat) (k : Z)
      (h p : list byte) :
  max_num_attempts c < 2 ^ 32 ->
  0 < timespec c -> 0 <= ack_timeout c ->
  ack_timeout c + timespec c <= 2 ^ 32 ->
  (forall i, accepts w k i = false) ->
  (window c <= gas)%nat ->
  forall d n a s,
    0 <= a -> a + Z.of_nat (S d) = max_num_attempts c -> (S d <= n)%nat ->
    exists s',
      attempts c w gas n k h p a s = Ret (false, max_num_attempts c) s' /\
      polls s' = (polls s + S d * window c)%nat /\
      sent s' = sent s ++ repeat (mkPacket h p) (S d) /\
      num_bytes_received s' = num_bytes_received s.
Proof.
  intros Hmax HT HA Hfit Hno Hgw.
  induction d as [|d IH]; intros n a s Ha Hd Hn;
    (destruct n as [|n]; [lia|]);
    rewrite attempts_eq, (wrap32_small (a + 1)) by lia;
    destruct (await_ack_timeout c w k HT HA Hfit gas (iqpr_txpacket h p s) Hgw
                (fun i _ => Hno _)) as (s1 & E & Hp & (_ & Hs & Hb));
    rewrite E; cbn [bind]; simpl in Hp, Hs, Hb.
  - destruct (Z.ltb_spec (a + 1) (max_num_attempts c)) as [Hlt|Hge]; [lia|].
    exists s1. split; [f_equal; f_equal; lia|].
    split; [lia|]. split; assumption.
  - destruct (Z.ltb_spec (a + 1) (max_num_attempts c)) as [Hlt|Hge]; [|lia].
    destruct (IH n (a + 1) s1 ltac:(lia) ltac:(lia) ltac:(lia))
      as (s' & E' & Hp' & Hs' & Hb').
    exists s'. split; [exact E'|]. split; [lia|]. split.
    + rewrite Hs', Hs, <- app_assoc. reflexivity.
    + congruence.
Qed.

(** X13: when no frame polled is ever accepted for packet 0 (nothing is
    found, or only damaged or foreign frames), the master with an attempt
    limit of at least 1 transmits packet 0 exactly [max_num_attempts] times,
    waits a full window after each transmission, and bails with nothing
    counted. *)
Theorem master_unanswered (c : config) (w : world) (gas : nat) :
  1 <= max_num_attempts c < 2 ^ 32 -> 1 <= num_packets c ->
  0 < timespec c -> 0 <= ack_timeout c ->
  ack_timeout c + timespec c <= 2 ^ 32 ->
  (forall i, accepts w 0 i = false) ->
  (window c <= gas)%nat -> max_num_attempts c <= Z.of_nat gas ->
  exists s fill payload,
    master c w gas = Ret Bailed s /\
    sent s = repeat (mkPacket (data_header 0 fill) payload)
                    (Z.to_nat (max_num_attempts c)) /\
    polls s = (Z.to_nat (max_num_attempts c) * window c)%nat /\
    num_bytes_received s = 0.
Proof.
  intros Hmax Hn HT HA Hfit Hno Hgw Hg.
  destruct gas as [|g] eqn:Eg; [lia|]. rewrite <- Eg in *.
  destruct (attempts_unanswered c w gas 0 (packet_header w 0 init_state)
              (packet_payload c w init_state) ltac:(lia) HT HA Hfit Hno Hgw
              (Z.to_nat (max_num_attempts c) - 1) gas 0
              (packet_state c w init_state))
    as (s & E & Hp & Hs & Hb); try lia.
  replace (S (Z.to_nat (max_num_attempts c) - 1))
    with (Z.to_nat (max_num_attempts c)) in Hp, Hs by lia.
  exists s, (fst (rand_bytes w 5 init_state)), (packet_payload c w init_state).
  unfold master. rewrite Eg at 2. rewrite master_loop_eq.
  assert (E0 : (0 <? num_packets c) = true) by (apply Z.ltb_lt; lia).
  rewrite E0, E. cbn [bind snd]. rewrite Z.eqb_refl.
  split; [reflexivity|]. split; [exact Hs|]. split; [exact Hp|exact Hb].
Qed.

Lemma master_unanswered_witness :
  (1 <= max_num_attempts two_attempts_config < 2 ^ 32 /\
   1 <= num_packets two_attempts_config /\
   0 < timespec two_attempts_config /\
   0 <= ack_timeout two_attempts_config /\
   ack_timeout two_attempts_config + timespec two_attempts_config <= 2 ^ 32 /\
   (forall i, accepts bad_header_world 0 i = false) /\
   (window two_attempts_config <= 240)%nat /\
   max_num_attempts two_attempts_config <= Z.of_nat 240) /\
  exists s, master two_attempts_config bad_header_world 240 = Ret Bailed s /\
            polls s = 480%nat /\ num_bytes_received s = 0.
Proof.
  assert (H1 : 1 <= max_num_attempts two_attempts_config < 2 ^ 32)
    by (split; vm_compute; [discriminate|reflexivity]).
  assert (H2 : 1 <= num_packets two_attempts_config)
    by (vm_compute; discriminate).
  assert (H3 : 0 < timespec two_attempts_config) by (vm_compute; reflexivity).
  assert (H4 : 0 <= ack_timeout two_attempts_config)
    by (vm_compute; discriminate).
  assert (H5 : ack_timeout two_attempts_config
               + timespec two_attempts_config <= 2 ^ 32)
    by (vm_compute; discriminate).
  assert (H6 : forall i, accepts bad_header_world 0 i = false)
    by reflexivity.
  assert (H7 : (window two_attempts_config <= 240)%nat)
    by (vm_compute; apply le_n).
  assert (H8 : max_num_attempts two_attempts_config <= Z.of_nat 240)
    by (vm_compute; discriminate).
  split; [repeat split; try assumption; apply H1|].
  destruct (master_unanswered two_attempts_config bad_header_world 240
              H1 H2 H3 H4 H5 H6 H7 H8) as (s & fill & payload & E & _ & Hp & Hb).
  exists s. split; [exact E|]. split; [exact Hp|exact Hb].
Defined.

Section SlaveInOrder.

Variable c : config.
Variable w : world.

Hypothesis some_packets : 1 <= num_packets c.
Hypothesis in_sequence :
  forall i, Z.of_nat i < num_packets c ->
  exists f, rx w i = Some f /\ good_data f = true /\
            decode_pid (rx_header f) = Z.of_nat i.

Lemma in_sequence_count : num_packets c <= 65536.
Proof.
  destruct (in_sequence (Z.to_nat (num_packets c - 1)) ltac:(lia))
    as (f & _ & _ & Hid).
  pose proof (decode_pid_range (rx_header f)). lia.
Qed.

Lemma slave_loop_in_sequence : forall d n i s,
  Z.of_nat (i + S d) = num_packets c -> (S d <= n)%nat -> polls s = i ->
  exists s', slave_loop c w n s = Ret tt s' /\ polls s' = (i + S d)%nat.
Proof.
  pose proof in_sequence_count as Hsmall.
  assert (Hw : wrap32 (num_packets c - 1) = num_packets c - 1)
    by (apply wrap32_small; lia).
  induction d as [|d IH]; intros n i s HN Hn Hp;
    (destruct n as [|n]; [lia|]);
    destruct (in_sequence i ltac:(lia)) as (f & Hrx & Hgood & Hid);
    apply good_data_iff in Hgood; destruct Hgood as (Hv & Ht & _);
    simpl; rewrite Hp, Hrx, Hw;
    rewrite slave_frame_rx_pid_data, Hid by assumption.
  - destruct (Z.eqb_spec (Z.of_nat i) (num_packets c - 1)) as [_|Hne];
      [|lia].
    simpl. eexists. split; [reflexivity|].
    rewrite slave_frame_polls. simpl. lia.
  - destruct (Z.eqb_spec (Z.of_nat i) (num_packets c - 1)) as [Heq|_];
      [lia|].
    simpl.
    destruct (IH n (S i) (slave_frame w f
                (mkState (S i) (rands s) (sent s) (num_bytes_received s)
                         (rx_pid s))))
      as (s' & E & Hp'); [lia|lia|now rewrite slave_frame_polls|].
    exists s'. split; [exact E|lia].
Qed.

Lemma polled_frames_in_sequence : forall d i,
  Z.of_nat (i + d) <= num_packets c ->
  filter good_data (polled_frames w i d) = polled_frames w i d /\
  map (fun f => decode_pid (rx_header f)) (polled_frames w i d) =
  map Z.of_nat (seq i d).
Proof.
  induction d as [|d IH]; intros i Hi; [split; reflexivity|].
  destruct (in_sequence i ltac:(lia)) as (f & Hrx & Hgood & Hid).
  destruct (IH (S i) ltac:(lia)) as (IH1 & IH2).
  rewrite polled_frames_step, Hrx. simpl. rewrite Hgood, IH1, IH2, Hid.
  split; reflexivity.
Qed.

End SlaveInOrder.

(** X14: when the polls find, one after the other, undamaged data frames
    with the ids 0, 1, ..., [num_packets - 1], the slave acknowledges each
    in turn and its loop ends right after the last: it has made
    [num_packets] polls, the packets transmitted carry the ids 0, ...,
    [num_packets - 1] in this order, and the byte count is the sum of the
    payload lengths found (modulo 2^64). *)
Theorem slave_answers_in_sequence (c : config) (w : world) (gas : nat) :
  1 <= num_packets c ->
  (forall i, Z.of_nat i < num_packets c ->
     exists f, rx w i = Some f /\ good_data f = true /\
               decode_pid (rx_header f) = Z.of_nat i) ->
  num_packets c <= Z.of_nat gas ->
  exists s,
    slave c w gas = Ret tt s /\
    polls s = Z.to_nat (num_packets c) /\
    map packet_id (sent s) = map Z.of_nat (seq 0 (Z.to_nat (num_packets c))) /\
    num_bytes_received s =
    wrap64 (total_payload (polled_frames w 0 (Z.to_nat (num_packets c)))).
Proof.
  intros HN Hseq Hg.
  destruct (slave_loop_in_sequence c w HN Hseq
              (Z.to_nat (num_packets c) - 1) gas 0%nat init_state)
    as (s & E & Hp); [lia|lia|reflexivity|].
  replace (0 + S (Z.to_nat (num_packets c) - 1))%nat
    with (Z.to_nat (num_packets c)) in Hp by lia.
  exists s. split; [exact E|]. split; [exact Hp|].
  destruct (slave_acks_every_good_frame_aux c w gas) as (Hid & Hb).
  unfold slave in Hid, Hb. rewrite E in Hid, Hb. cbn [final] in Hid, Hb.
  rewrite Hp in Hid, Hb.
  destruct (polled_frames_in_sequence c w Hseq (Z.to_nat (num_packets c)) 0%nat
              ltac:(lia)) as (Hf & Hm).
  rewrite Hf in Hid, Hb. split; [now rewrite Hid|exact Hb].
Qed.

Lemma slave_answers_in_sequence_witness :
  (1 <= num_packets three_packets /\
   (forall i, Z.of_nat i < num_packets three_packets ->
      exists f, rx data_world i = Some f /\ good_data f = true /\
                decode_pid (rx_header f) = Z.of_nat i) /\
   num_packets three_packets <= Z.of_nat 10) /\
  exists s,
    slave three_packets data_world 10 = Ret tt s /\
    polls s = 3%nat /\ map packet_id (sent s) = [0; 1; 2].
Proof.
  assert (H1 : 1 <= num_packets three_packets) by (vm_compute; discriminate).
  assert (H2 : forall i, Z.of_nat i < num_packets three_packets ->
                 exists f, rx data_world i = Some f /\ good_data f = true /\
                           decode_pid (rx_header f) = Z.of_nat i).
  { intros i Hi. change (num_packets three_packets) with 3 in Hi.
    eexists. split; [reflexivity|].
    destruct i as [|[|[|i]]]; [split; reflexivity ..|lia]. }
  assert (H3 : num_packets three_packets <= Z.of_nat 10)
    by (vm_compute; discriminate).
  split; [repeat split; assumption|].
  destruct (slave_answers_in_sequence three_packets data_world 10 H1 H2 H3)
    as (s & E & Hp & Hid & _).
  exists s. split; [exact E|]. split; [exact Hp|exact Hid].
Defined.
